(** * PaperPal: the preference memory store ([src/preference_manager.py])

    A shallow embedding of the [Preferences] dataclass with its [to_dict] /
    [from_dict] serialisation, and of the [PreferenceManager] methods that
    queue preference fragments, merge them into the natural-language memory
    through the language model and compress an over-long memory.

    Conventions of the embedding.
    - A Python [str] is a sequence of Unicode code points, so [len] is the
      length of that sequence: [str := list N].  String literals of the
      source that are plain ASCII are written as Rocq strings and read
      through the coercion [lit].
    - A JSON document is a [pyval]; a JSON object (a Python [dict] with
      string keys) is a [gmap string pyval].
    - Methods that raise return in [res]; methods that also read or change
      the object, the file, the clock or the network run in the monad [M],
      whose state outlives a raise as Python's does. *)

From Stdlib Require Import ZArith NArith QArith Ascii String.
From stdpp Require Import gmap strings list fin_maps pretty.

Set Warnings "-register-all".

(** ** Python strings *)

Definition char := N.
Definition str := list char.

Definition lit (s : string) : str :=
  (λ a, N_of_ascii a) <$> list_ascii_of_string s.
Coercion lit : string >-> str.

(** [a + b], and the pieces of an f-string. *)
Definition cat (a b : str) : str := a ++ b.
Infix "+++" := cat (at level 60, right associativity).

Definition len (s : str) : nat := length s.

(** [s[:n]] for a non-negative [n]. *)
Definition slice_to (n : nat) (s : str) : str := take n s.

(** [str.isspace] on one character: the code points Python's [strip()]
    removes. *)
Definition isspace (c : char) : bool :=
  bool_decide (c ∈ [9; 10; 11; 12; 13; 28; 29; 30; 31; 32; 133; 160; 5760;
                    8232; 8233; 8239; 8287; 12288]%N)
  || ((8192 <=? c) && (c <=? 8202))%N.

Fixpoint lstrip (s : str) : str :=
  match s with
  | c :: s' => if isspace c then lstrip s' else s
  | [] => []
  end.

Fixpoint rstrip (s : str) : str :=
  match s with
  | [] => []
  | c :: s' =>
      match rstrip s' with
      | [] => if isspace c then [] else [c]
      | r => c :: r
      end
  end.

(** [s.strip()] *)
Definition strip (s : str) : str := rstrip (lstrip s).

Fixpoint startswith (p s : str) : bool :=
  match p, s with
  | [], _ => true
  | a :: p', b :: s' => (a =? b)%N && startswith p' s'
  | _ :: _, [] => false
  end.

(** [sub in s] *)
Fixpoint contains (sub s : str) : bool :=
  startswith sub s
  || match s with
     | [] => false
     | _ :: s' => contains sub s'
     end.

(** [s.split(sep, 1)] for a non-empty [sep]: cut at the leftmost
    occurrence; a single piece when there is none. *)
Fixpoint split1 (sep s : str) : list str :=
  if startswith sep s then [ [] ; drop (length sep) s ]
  else match s with
       | [] => [ [] ]
       | c :: s' =>
           match split1 sep s' with
           | h :: t => (c :: h) :: t
           | [] => []
           end
       end.

(** [sep.join(l)] *)
Fixpoint join (sep : str) (l : list str) : str :=
  match l with
  | [] => []
  | [x] => x
  | x :: l' => x ++ sep ++ join sep l'
  end.

(** [s.lower()], on the letters A-Z.  The source only compares the result
    with ["none"], and no character outside A-Z lowercases to n, o or e. *)
Definition lower_char (c : char) : char :=
  if ((65 <=? c) && (c <=? 90))%N then (c + 32)%N else c.
Definition lower (s : str) : str := lower_char <$> s.

(** [str(n)] for a natural number. *)
Definition str_of_nat (n : nat) : str := lit (pretty n).

(** ** JSON values and Python exceptions *)

(** What [json.load] returns, but for floating-point numbers, which no field
    of the schema holds. *)
Inductive pyval :=
| PNone
| PBool (b : bool)
| PInt (n : Z)
| PStr (s : str)
| PList (l : list pyval)
| PDict (d : gmap string pyval).

(** Python's truth value of a JSON value. *)
Definition truthy (v : pyval) : bool :=
  match v with
  | PNone => false
  | PBool b => b
  | PInt n => negb (n =? 0)%Z
  | PStr s => negb (bool_decide (s = []))
  | PList l => match l with [] => false | _ => true end
  | PDict d => match map_to_list d with [] => false | _ => true end
  end.

(** [data.get(k)] and [data.get(k, default)] *)
Definition get (k : string) (data : gmap string pyval) : pyval :=
  default PNone (data !! k).
Definition get_or (k : string) (dflt : pyval) (data : gmap string pyval) : pyval :=
  default dflt (data !! k).

Record exn := Exn { exn_class : string; exn_msg : str }.

Inductive res (A : Type) :=
| Ok (a : A)
| Raise (e : exn).
Arguments Ok {A} a.
Arguments Raise {A} e.

#[global] Instance res_ret : MRet res := λ A a, Ok a.
#[global] Instance res_bind : MBind res := λ A B f m,
  match m with
  | Ok a => f a
  | Raise e => Raise e
  end.
#[global] Instance res_fmap : FMap res := λ A B f m,
  match m with
  | Ok a => Ok (f a)
  | Raise e => Raise e
  end.

Definition TypeError : exn := Exn "TypeError" "".
Definition KeyError (k : string) : exn := Exn "KeyError" k.
Definition IndexError : exn := Exn "IndexError" "list index out of range".
Definition ValueError (m : string) : exn := Exn "ValueError" m.
Definition OSError : exn := Exn "OSError" "".

(** The embedding is typed where Python is not: [from_dict] copies whatever
    the file holds into the dataclass, also a value its annotations
    exclude.  Such a record leaves the model; [IllTyped] marks it. *)
Definition IllTyped : exn := Exn "IllTyped" "".

Definition as_str (v : pyval) : res str :=
  match v with PStr s => Ok s | _ => Raise IllTyped end.
Definition as_int (v : pyval) : res Z :=
  match v with PInt n => Ok n | _ => Raise IllTyped end.
Definition as_bool (v : pyval) : res bool :=
  match v with PBool b => Ok b | _ => Raise IllTyped end.
Definition as_optional {A} (f : pyval → res A) (v : pyval) : res (option A) :=
  match v with PNone => Ok None | _ => Some <$> f v end.
Definition as_list {A} (f : pyval → res A) (v : pyval) : res (list A) :=
  match v with PList l => mapM f l | _ => Raise IllTyped end.

Definition of_optional {A} (f : A → pyval) (o : option A) : pyval :=
  match o with Some a => f a | None => PNone end.

(** [data[k]] *)
Definition getitem (k : string) (data : gmap string pyval) : res pyval :=
  match data !! k with Some v => Ok v | None => Raise (KeyError k) end.

(** [l[i]] and [a, b = l] on a list of strings. *)
Definition index (l : list str) (i : nat) : res str :=
  match l !! i with Some x => Ok x | None => Raise IndexError end.
Definition unpack2 (l : list str) : res (str * str) :=
  match l with
  | [a; b] => Ok (a, b)
  | _ => Raise (ValueError "not enough values to unpack")
  end.

(** [for x in v]: the items Python iterates over.  A string yields its
    characters; the keys of a non-empty dict come in insertion order, which a
    [gmap] does not keep. *)
Definition iterate (v : pyval) : res (list pyval) :=
  match v with
  | PList l => Ok l
  | PStr s => Ok ((λ c, PStr [c]) <$> s)
  | PDict d => match map_to_list d with [] => Ok [] | _ => Raise IllTyped end
  | _ => Raise TypeError
  end.

(** [sep.join(v)]: every item must be a string. *)
Definition join_iter (sep : str) (v : pyval) : res str :=
  items ← iterate v;
  strs ← mapM (λ x, match x with PStr s => Ok s | _ => Raise TypeError end) items;
  mret (join sep strs).

(** ** The dataclasses *)

Module QueryRecord.
Record t := mk {
  timestamp : str;
  topic : str;
  time_range : str;
  results_count : Z
}.

Definition to_dict (self : t) : gmap string pyval :=
  <["timestamp" := PStr (timestamp self)]> $
  <["topic" := PStr (topic self)]> $
  <["time_range" := PStr (time_range self)]> $
  <["results_count" := PInt (results_count self)]> ∅.

Definition fields : gset string :=
  {[ "timestamp"; "topic"; "time_range"; "results_count" ]}.

(** [cls( **data )]: a missing or an unexpected keyword is a TypeError. *)
Definition from_dict (data : pyval) : res t :=
  match data with
  | PDict d =>
      if bool_decide (dom d = fields) then
        timestamp ← as_str (get "timestamp" d);
        topic ← as_str (get "topic" d);
        time_range ← as_str (get "time_range" d);
        results_count ← as_int (get "results_count" d);
        mret (mk timestamp topic time_range results_count)
      else Raise TypeError
  | _ => Raise TypeError
  end.
End QueryRecord.

Module FeedbackRecord.
Record t := mk {
  timestamp : str;
  paper_id : str;
  paper_title : str;
  feedback_type : str;
  feedback_reason : str
}.

Definition to_dict (self : t) : gmap string pyval :=
  <["timestamp" := PStr (timestamp self)]> $
  <["paper_id" := PStr (paper_id self)]> $
  <["paper_title" := PStr (paper_title self)]> $
  <["feedback_type" := PStr (feedback_type self)]> $
  <["feedback_reason" := PStr (feedback_reason self)]> ∅.

Definition fields : gset string :=
  {[ "timestamp"; "paper_id"; "paper_title"; "feedback_type";
     "feedback_reason" ]}.

Definition from_dict (data : pyval) : res t :=
  match data with
  | PDict d =>
      if bool_decide (dom d = fields) then
        timestamp ← as_str (get "timestamp" d);
        paper_id ← as_str (get "paper_id" d);
        paper_title ← as_str (get "paper_title" d);
        feedback_type ← as_str (get "feedback_type" d);
        feedback_reason ← as_str (get "feedback_reason" d);
        mret (mk timestamp paper_id paper_title feedback_type feedback_reason)
      else Raise TypeError
  | _ => Raise TypeError
  end.
End FeedbackRecord.

Module Preferences.
Record t := mk {
  preference_memory : str;
  pending_updates : list str;
  query_history : list QueryRecord.t;
  feedback_history : list FeedbackRecord.t;
  language : option str;
  search_mode : option str;
  max_workers : option Z;
  save_to_local : option bool;
  output_dir : option str;
  save_results : option bool;
  max_display : option Z;
  auto_summary : option bool;
  arxiv_categories : option (list str);
  last_updated : str
}.

(** [Preferences()] *)
Definition empty : t :=
  mk [] [] [] [] None None None None None None None None None [].

Definition to_dict (self : t) : gmap string pyval :=
  <["preference_memory" := PStr (preference_memory self)]> $
  <["pending_updates" := PList (PStr <$> pending_updates self)]> $
  <["query_history" :=
      PList ((λ q, PDict (QueryRecord.to_dict q)) <$> query_history self)]> $
  <["feedback_history" :=
      PList ((λ f, PDict (FeedbackRecord.to_dict f)) <$> feedback_history self)]> $
  <["language" := of_optional PStr (language self)]> $
  <["search_mode" := of_optional PStr (search_mode self)]> $
  <["max_workers" := of_optional PInt (max_workers self)]> $
  <["save_to_local" := of_optional PBool (save_to_local self)]> $
  <["output_dir" := of_optional PStr (output_dir self)]> $
  <["save_results" := of_optional PBool (save_results self)]> $
  <["max_display" := of_optional PInt (max_display self)]> $
  <["auto_summary" := of_optional PBool (auto_summary self)]> $
  <["arxiv_categories" :=
      of_optional (λ l, PList (PStr <$> l)) (arxiv_categories self)]> $
  <["last_updated" := PStr (last_updated self)]> ∅.

(** One [if data.get(k): old_parts.append(f"{label}{', '.join(data[k])}")]. *)
Definition append_keywords (k : string) (label : str)
    (data : gmap string pyval) (old_parts : list str) : res (list str) :=
  if truthy (get k data) then
    v ← getitem k data;
    s ← join_iter ", " v;
    mret (old_parts ++ [label +++ s])
  else mret old_parts.

(** The migration block of [from_dict]: the value of the local
    [preference_memory] when the constructor is called. *)
Definition migrated_memory (data : gmap string pyval) : res pyval :=
  let preference_memory := get_or "preference_memory" (PStr "") data in
  if negb (truthy preference_memory) then
    old_parts ← append_keywords "interested_keywords" "Interested in: " data [];
    old_parts ← append_keywords "not_interested_keywords" "Not interested in: "
                  data old_parts;
    old_parts ← append_keywords "interested_topics" "Interested topics: "
                  data old_parts;
    old_parts ← append_keywords "not_interested_topics" "Topics to avoid: "
                  data old_parts;
    old_parts ← (if truthy (get "custom_preferences" data) then
                   v ← getitem "custom_preferences" data;
                   match v with
                   | PStr s => mret (old_parts ++ [s])
                   | _ => Raise TypeError
                   end
                 else mret old_parts);
    mret (PStr (join " " old_parts))
  else mret preference_memory.

Definition from_dict (data : gmap string pyval) : res t :=
  preference_memory ← migrated_memory data;
  preference_memory ← as_str preference_memory;
  pending_updates ← as_list as_str (get_or "pending_updates" (PList []) data);
  query_history ←
    (items ← iterate (get_or "query_history" (PList []) data);
     mapM QueryRecord.from_dict items);
  feedback_history ←
    (items ← iterate (get_or "feedback_history" (PList []) data);
     mapM FeedbackRecord.from_dict items);
  language ← as_optional as_str (get "language" data);
  search_mode ← as_optional as_str (get "search_mode" data);
  max_workers ← as_optional as_int (get "max_workers" data);
  save_to_local ← as_optional as_bool (get "save_to_local" data);
  output_dir ← as_optional as_str (get "output_dir" data);
  save_results ← as_optional as_bool (get "save_results" data);
  max_display ← as_optional as_int (get "max_display" data);
  auto_summary ← as_optional as_bool (get "auto_summary" data);
  arxiv_categories ← as_optional (as_list as_str) (get "arxiv_categories" data);
  last_updated ← as_str (get_or "last_updated" (PStr "") data);
  mret (mk preference_memory pending_updates query_history feedback_history
          language search_mode max_workers save_to_local output_dir
          save_results max_display auto_summary arxiv_categories last_updated).

(** The legacy fields as the migration renders them, following the
    specification: each keyword list that is present and not empty, in the
    fixed order, then the custom free text. *)
Definition legacy_lists : list (string * str) :=
  [ ("interested_keywords", lit "Interested in: ");
    ("not_interested_keywords", lit "Not interested in: ");
    ("interested_topics", lit "Interested topics: ");
    ("not_interested_topics", lit "Topics to avoid: ") ].

Definition strings_of (l : list pyval) : list str :=
  omap (λ x, match x with PStr s => Some s | _ => None end) l.

Definition render_list (data : gmap string pyval) (f : string * str) : option str :=
  match data !! f.1 with
  | Some (PList (x :: l)) => Some (f.2 +++ join ", " (strings_of (x :: l)))
  | _ => None
  end.

Definition render_custom (data : gmap string pyval) : option str :=
  match data !! "custom_preferences" with
  | Some (PStr (c :: s)) => Some (c :: s)
  | _ => None
  end.

Definition legacy_renderings (data : gmap string pyval) : list str :=
  omap (render_list data) legacy_lists ++ option_list (render_custom data).
End Preferences.


(** ** The world a [PreferenceManager] runs in *)

(** One request to the language model: the [(role, content)] messages and
    the temperature. *)
Record ChatCall := mkCall {
  messages : list (str * str);
  temperature : Q
}.

(** What happens while one request is in flight: the fragments the
    foreground enqueues meanwhile (through [add_preference_update]), then the
    text the model returns or the exception [chat] raises. *)
Record ChatStep := mkStep {
  meanwhile : list str;
  reply : res str
}.

(** [on_complete]: a caller's closure; it may raise. *)
Definition Callback := str → res unit.

(** The bodies handed to [threading.Thread]. *)
Inductive Thread :=
| RunUpdate (on_complete : option Callback)
| Run.

(** The manager object together with what it talks to.  The file system,
    the clock and the model are scripts the environment wrote in advance: a
    write past the end of [write_faults] succeeds, a clock read past the end
    of [clock] gives the empty string.  [chat_log] and [notifications] only
    record what happened. *)
Record World := mkWorld {
  preferences : Preferences.t;          (* self.preferences *)
  file : option (gmap string pyval);    (* the JSON in preferences_file *)
  write_faults : list bool;             (* per write: does open() raise? *)
  clock : list str;                     (* datetime.now().isoformat(), per reading *)
  api_key : bool;                       (* is config.OPENAI_API_KEY set? *)
  replies : list ChatStep;              (* the model's answers, per request *)
  chat_log : list ChatCall;             (* trace: requests sent so far *)
  threads : list Thread;                (* daemon threads started, not yet run *)
  notifications : list str              (* trace: arguments on_complete received *)
}.

(** A method body: it returns or raises, and leaves a world behind either
    way.  A body runs without interleaving, but for a request to the model
    ([chat] below); that is the atomicity [self._lock] gives to the drain and
    to the requeue of the source. *)
Definition M (A : Type) : Type := World → res A * World.

#[global] Instance M_ret : MRet M := λ A a w, (Ok a, w).
#[global] Instance M_bind : MBind M := λ A B f m w,
  match m w with
  | (Ok a, w') => f a w'
  | (Raise e, w') => (Raise e, w')
  end.

Definition gets {A} (f : World → A) : M A := λ w, (Ok (f w), w).
Definition modify (f : World → World) : M unit := λ w, (Ok (), f w).
Definition lift_res {A} (r : res A) : M A := λ w, (r, w).

(** [try: body except Exception as e: handler e] *)
Definition try_except {A} (body : M A) (handler : exn → M A) : M A := λ w,
  match body w with
  | (Ok a, w') => (Ok a, w')
  | (Raise e, w') => handler e w'
  end.

Definition with_preferences (f : Preferences.t → Preferences.t) (w : World) : World :=
  mkWorld (f (preferences w)) (file w) (write_faults w) (clock w) (api_key w)
    (replies w) (chat_log w) (threads w) (notifications w).

Definition set_pending_updates (l : list str) (p : Preferences.t) : Preferences.t :=
  Preferences.mk (Preferences.preference_memory p) l
    (Preferences.query_history p) (Preferences.feedback_history p)
    (Preferences.language p) (Preferences.search_mode p)
    (Preferences.max_workers p) (Preferences.save_to_local p)
    (Preferences.output_dir p) (Preferences.save_results p)
    (Preferences.max_display p) (Preferences.auto_summary p)
    (Preferences.arxiv_categories p) (Preferences.last_updated p).

Definition set_preference_memory (m : str) (p : Preferences.t) : Preferences.t :=
  Preferences.mk m (Preferences.pending_updates p)
    (Preferences.query_history p) (Preferences.feedback_history p)
    (Preferences.language p) (Preferences.search_mode p)
    (Preferences.max_workers p) (Preferences.save_to_local p)
    (Preferences.output_dir p) (Preferences.save_results p)
    (Preferences.max_display p) (Preferences.auto_summary p)
    (Preferences.arxiv_categories p) (Preferences.last_updated p).

Definition set_last_updated (s : str) (p : Preferences.t) : Preferences.t :=
  Preferences.mk (Preferences.preference_memory p) (Preferences.pending_updates p)
    (Preferences.query_history p) (Preferences.feedback_history p)
    (Preferences.language p) (Preferences.search_mode p)
    (Preferences.max_workers p) (Preferences.save_to_local p)
    (Preferences.output_dir p) (Preferences.save_results p)
    (Preferences.max_display p) (Preferences.auto_summary p)
    (Preferences.arxiv_categories p) s.

(** [datetime.now().isoformat()] *)
Definition now_isoformat : M str := λ w,
  (Ok (default (lit "") (head (clock w))),
   mkWorld (preferences w) (file w) (write_faults w) (tail (clock w)) (api_key w)
     (replies w) (chat_log w) (threads w) (notifications w)).

(** [with open(self.preferences_file, "w") as f: json.dump(data, f)], after
    the [mkdir] of its directory; a fault leaves the file as it was. *)
Definition write_file (data : gmap string pyval) : M unit := λ w,
  let fault := default false (head (write_faults w)) in
  (if fault then Raise OSError else Ok (),
   mkWorld (preferences w) (if fault then file w else Some data)
     (tail (write_faults w)) (clock w) (api_key w)
     (replies w) (chat_log w) (threads w) (notifications w)).

(** [threading.Thread(target=body, daemon=True).start()] *)
Definition start_thread (body : Thread) : M unit := λ w,
  (Ok (),
   mkWorld (preferences w) (file w) (write_faults w) (clock w) (api_key w)
     (replies w) (chat_log w) (threads w ++ [body]) (notifications w)).

(** Calling the caller's closure. *)
Definition call (on_complete : Callback) (message : str) : M unit := λ w,
  (on_complete message,
   mkWorld (preferences w) (file w) (write_faults w) (clock w) (api_key w)
     (replies w) (chat_log w) (threads w) (notifications w ++ [message])).

(** [get_llm_client()]: the constructor raises without an API key. *)
Definition get_llm_client : M unit := λ w,
  (if api_key w then Ok ()
   else Raise (ValueError "API_KEY is not set. Please set OPENAI_API_KEY in your .env file or as an environment variable."),
   w).

(** ** PreferenceManager *)

Definition MAX_MEMORY_LENGTH : nat := 2000.
Definition TARGET_MEMORY_LENGTH : nat := 1500.

Definition save_preferences : M unit :=
  now ← now_isoformat;
  modify (with_preferences (set_last_updated now));;
  p ← gets preferences;
  write_file (Preferences.to_dict p).

Definition add_preference_update (update_text : str) (save : bool) : M unit :=
  if negb (bool_decide (update_text = [])) && negb (bool_decide (strip update_text = []))
  then
    modify (with_preferences (λ p,
      set_pending_updates (Preferences.pending_updates p ++ [strip update_text]) p));;
    if save then save_preferences else mret ()
  else mret ().

Definition ConnectionError : exn :=
  Exn "ConnectionError" "Failed to connect to LLM API.".

(** The next answer of the model; none left is a connection failure. *)
Definition next_step (script : list ChatStep) : ChatStep :=
  default (mkStep [] (Raise ConnectionError)) (head script).

(** [llm_client.chat(messages, temperature=t)].  The request is logged, the
    foreground's enqueues of the step happen while it is in flight (their
    own exceptions stay in the foreground), then the step's reply comes
    back. *)
Definition chat (msgs : list (str * str)) (t : Q) : M str := λ w,
  let step := next_step (replies w) in
  let w := mkWorld (preferences w) (file w) (write_faults w) (clock w) (api_key w)
             (tail (replies w)) (chat_log w ++ [mkCall msgs t]) (threads w)
             (notifications w) in
  (reply step,
   foldl (λ w f, (add_preference_update f true w).2) w (meanwhile step)).

Definition nl : str := [10%N].
Definition dquote : str := [34%N].

(** The text the source spells after "Chinese" and before its notices, code
    point by code point. *)
Definition zh_name : str :=
  [0xe7; 0xae; 0x20ac; 0xe4; 0xbd; 0x201c; 0xe4; 0xb8; 0xad; 0xe6; 0x2013; 0x2021]%N.
Definition notice_mark : str :=
  [0xf0; 0x178; 0x2014; 0x153; 0xef; 0xb8]%N.

(** [self.preferences.language or "en"] *)
Definition lang_or_en (w : World) : str :=
  match Preferences.language (preferences w) with
  | Some (c :: s) => c :: s
  | _ => lit "en"
  end.

(** The result dicts: [{"memory": ..., "notification": ...}] of
    [_compress_memory], and the dict of [_process_memory_update] tagged by
    its "status". *)
Module CompressResult.
Record t := mk {
  memory : str;
  notification : str
}.
End CompressResult.

Inductive MergeResult :=
| NoUpdates                              (* {"status": "no_updates"} *)
| Success (notification : option str)    (* {"status": "success", "notification": n} *)
| Error (message : str).                 (* {"status": "error", "message": str(e)} *)

(** [result.get("notification")] *)
Definition get_notification (result : MergeResult) : option str :=
  match result with
  | Success n => n
  | _ => None
  end.

(** The parsing block of [_compress_memory]: the locals [compressed] and
    [removed] when it ends. *)
Definition parse_compressed (response : str) : res (str * str) :=
  let compressed : str := lit "" in
  let removed : str := lit "" in
  if contains "COMPRESSED_MEMORY:" response then
    parts ← index (split1 "COMPRESSED_MEMORY:" response) 1;
    if contains "REMOVED_TOPICS" parts then
      '(compressed, removed_part) ← unpack2 (split1 "REMOVED_TOPICS" parts);
      let compressed := strip compressed in
      if contains ":" removed_part then
        removed ← strip <$> index (split1 ":" removed_part) 1;
        mret (compressed, removed)
      else mret (compressed, removed)
    else mret (strip parts, removed)
  else mret (strip response, removed).

Definition compress_notification (removed : str) : str :=
  if negb (bool_decide (removed = [])) && negb (bool_decide (lower removed = lit "none"))
  then notice_mark +++ " Memory compressed. Removed: " +++ removed
  else notice_mark +++ " Memory compressed to fit size limit.".

Definition truncated_notification : str :=
  notice_mark +++ " Memory truncated due to size limit.".

Definition compress_system_prompt (lang : str) (memory : str) : str :=
  let lang_instruction : str :=
    if bool_decide (lang = lit "zh")
    then "Provide output in Chinese (" +++ zh_name +++ ")."
    else lit "Provide output in English." in
  "You are a memory compression assistant. The user's preference memory is too long and needs to be compressed." +++ nl +++
  nl +++
  "RULES:" +++ nl +++
  "1. Keep the most important and recent preferences" +++ nl +++
  "2. Remove redundant or less important details" +++ nl +++
  "3. Maintain natural language flow" +++ nl +++
  "4. Target length: around " +++ str_of_nat TARGET_MEMORY_LENGTH +++ " characters" +++ nl +++
  "5. If you must remove something significant, note what category was trimmed" +++ nl +++
  nl +++
  lang_instruction +++ nl +++
  nl +++
  "Current length: " +++ str_of_nat (len memory) +++ " characters" +++ nl +++
  "Target: " +++ str_of_nat TARGET_MEMORY_LENGTH +++ " characters" +++ nl +++
  nl +++
  "Output format:" +++ nl +++
  "COMPRESSED_MEMORY:" +++ nl +++
  "<the compressed memory>" +++ nl +++
  nl +++
  "REMOVED_TOPICS (if any were removed):" +++ nl +++
  "<brief description of what was removed, or " +++ dquote +++ "None" +++ dquote +++ ">".

(** The request [_compress_memory] sends for [memory]. *)
Definition compress_call (lang : str) (memory : str) : ChatCall :=
  mkCall [ (lit "system", compress_system_prompt lang memory);
           (lit "user", "Memory to compress:" +++ nl +++ memory) ]
         (2 # 10).

Definition _compress_memory (memory : str) : M CompressResult.t :=
  lang ← gets lang_or_en;
  let request := compress_call lang memory in
  try_except
    (response ← chat (messages request) (temperature request);
     '(compressed, removed) ← lift_res (parse_compressed response);
     mret (CompressResult.mk compressed (compress_notification removed)))
    (λ _,
       let truncated := slice_to TARGET_MEMORY_LENGTH memory in
       mret (CompressResult.mk truncated truncated_notification)).

Definition merge_system_prompt (lang : str) : str :=
  let lang_instruction : str :=
    if bool_decide (lang = lit "zh")
    then "Provide description in Chinese (" +++ zh_name +++ ")."
    else lit "Provide description in English." in
  "You are a preference memory manager. Your task is to maintain a concise natural language description of a user's research interests and preferences." +++ nl +++
  nl +++
  "RULES:" +++ nl +++
  "1. Integrate new information into existing memory" +++ nl +++
  "2. Resolve contradictions: newer info overrides older (e.g., if user now likes RAG but memory says they don't, update to like RAG)" +++ nl +++
  "3. Keep the description natural and readable" +++ nl +++
  "4. Be concise but comprehensive" +++ nl +++
  "5. Focus on: topics of interest, topics to avoid, preferred paper types, research areas" +++ nl +++
  nl +++
  lang_instruction +++ nl +++
  "Output ONLY the updated preference description, nothing else.".

Definition merge_user_prompt (current_memory : str) (new_info : str) : str :=
  "Current memory:" +++ nl +++
  (if bool_decide (current_memory = []) then lit "(empty)" else current_memory) +++ nl +++
  nl +++
  "New information to integrate:" +++ nl +++
  new_info +++ nl +++
  nl +++
  "Output the updated preference description:".

(** The request [_process_memory_update] sends to merge [pending] into
    [current_memory]. *)
Definition merge_call (lang : str) (current_memory : str) (pending : list str) : ChatCall :=
  mkCall [ (lit "system", merge_system_prompt lang);
           (lit "user", merge_user_prompt current_memory (join nl pending)) ]
         (3 # 10).

Definition _process_memory_update : M MergeResult :=
  (* with self._lock: *)
  pending ← gets (λ w, Preferences.pending_updates (preferences w));
  modify (with_preferences (set_pending_updates []));;
  if bool_decide (pending = []) then mret NoUpdates
  else
    current_memory ← gets (λ w, Preferences.preference_memory (preferences w));
    lang ← gets lang_or_en;
    let request := merge_call lang current_memory pending in
    try_except
      (response ← chat (messages request) (temperature request);
       let new_memory := strip response in
       let notification : option str := None in
       '(new_memory, notification) ←
         (if bool_decide (MAX_MEMORY_LENGTH < len new_memory) then
            compress_result ← _compress_memory new_memory;
            mret (CompressResult.memory compress_result,
                  Some (CompressResult.notification compress_result))
          else mret (new_memory, notification));
       modify (with_preferences (set_preference_memory new_memory));;
       save_preferences;;
       mret (Success notification))
      (λ e,
         (* with self._lock: *)
         modify (with_preferences (λ p,
           set_pending_updates (pending ++ Preferences.pending_updates p) p));;
         mret (Error (exn_msg e))).

Definition schedule_memory_update (new_info : str) (on_complete : option Callback)
    : M unit :=
  if bool_decide (new_info = []) || bool_decide (strip new_info = []) then mret ()
  else
    add_preference_update new_info true;;
    start_thread (RunUpdate on_complete).

(** The thread body [_run_update] of [schedule_memory_update]. *)
Definition _run_update (on_complete : option Callback) : M unit :=
  try_except
    (get_llm_client;;
     result ← _process_memory_update;
     match on_complete, get_notification result with
     | Some on_complete, Some (c :: n) => call on_complete (c :: n)
     | _, _ => mret ()
     end)
    (λ _, mret ()).

(** The thread body [_run] of [schedule_background_optimization]. *)
Definition _run : M unit :=
  try_except
    (get_llm_client;;
     _ ← _process_memory_update;
     mret ())
    (λ _, mret ()).

Definition schedule_background_optimization : M unit :=
  start_thread Run.

(** Running a started thread to its end. *)
Definition run_thread (body : Thread) : M unit :=
  match body with
  | RunUpdate on_complete => _run_update on_complete
  | Run => _run
  end.

(** ** Vocabulary of the statements *)

(** The fragments waiting to be merged. *)
Definition pending (w : World) : list str :=
  Preferences.pending_updates (preferences w).

(** The committed memory text. *)
Definition memory_text (w : World) : str :=
  Preferences.preference_memory (preferences w).

(** What a run of [add_preference_update] over [l] appends: every fragment
    that is not blank, stripped. *)
Definition enqueued (l : list str) : list str :=
  omap (λ f, if forallb isspace f then None else Some (strip f)) l.

(** What [save_preferences] and an enqueue leave alone. *)
Definition frame (w : World) :=
  (memory_text w, Preferences.language (preferences w), api_key w, replies w,
   chat_log w, threads w, notifications w).

(** [sep] occurs in [s] between [pre] and [post], and nowhere further left. *)
Definition first_occurrence (sep s pre post : str) : Prop :=
  s = pre ++ sep ++ post ∧
  ∀ i, i < length pre → startswith sep (drop i s) = false.

(** The parsing contract of a compression response, up to how a cut piece is
    trimmed. *)
Definition parses_to (trim : str → str) (response compressed removed : str) : Prop :=
  if contains "COMPRESSED_MEMORY:" response then
    ∃ pre post, first_occurrence "COMPRESSED_MEMORY:" response pre post ∧
      if contains "REMOVED_TOPICS" post then
        ∃ mid rest, first_occurrence "REMOVED_TOPICS" post mid rest ∧
          compressed = trim mid ∧
          if contains ":" rest then
            ∃ label report, first_occurrence ":" rest label report ∧
              removed = trim report
          else removed = []
      else compressed = trim post ∧ removed = []
  else compressed = trim response ∧ removed = [].

(** A legacy record as the old schema wrote it: keyword lists are lists of
    strings (or null), the custom text is a string (or null). *)
Definition is_str (v : pyval) : bool :=
  match v with PStr _ => true | _ => false end.
Definition legacy_list_typed (o : option pyval) : bool :=
  match o with
  | None | Some PNone => true
  | Some (PList l) => forallb is_str l
  | _ => false
  end.
Definition legacy_typed (data : gmap string pyval) : bool :=
  forallb (λ f : string * str, legacy_list_typed (data !! f.1)) Preferences.legacy_lists
  && match data !! "custom_preferences" with
     | None | Some PNone | Some (PStr _) => true
     | _ => false
     end.

(** What [_compress_memory] answers, from the reply to its request. *)
Definition compressed_from (memory : str) (r : res str) : CompressResult.t :=
  match r with
  | Ok response =>
      match parse_compressed response with
      | Ok (compressed, removed) =>
          CompressResult.mk compressed (compress_notification removed)
      | Raise _ =>
          CompressResult.mk (slice_to TARGET_MEMORY_LENGTH memory) truncated_notification
      end
  | Raise _ =>
      CompressResult.mk (slice_to TARGET_MEMORY_LENGTH memory) truncated_notification
  end.

(** The notifications [on_complete] receives from a run of the thread body. *)
Definition delivered (on_complete : option Callback) (w : World) : list str :=
  drop (length (notifications w)) (notifications (_run_update on_complete w).2).

(** A store with fragments [l] waiting, whose model answers by [script]. *)
Definition store_with (memory : str) (l : list str) (script : list ChatStep) : World :=
  mkWorld (set_preference_memory memory (set_pending_updates l Preferences.empty))
    None [] [] true script [] [] [].

(** ** The rest of [PreferenceManager] *)

(** [l[-n:]] for a positive [n]. *)
Definition last_n {A} (n : nat) (l : list A) : list A :=
  drop (length l - n) l.

Definition put_query_history (l : list QueryRecord.t) (p : Preferences.t) : Preferences.t :=
  Preferences.mk (Preferences.preference_memory p) (Preferences.pending_updates p)
    l (Preferences.feedback_history p)
    (Preferences.language p) (Preferences.search_mode p)
    (Preferences.max_workers p) (Preferences.save_to_local p)
    (Preferences.output_dir p) (Preferences.save_results p)
    (Preferences.max_display p) (Preferences.auto_summary p)
    (Preferences.arxiv_categories p) (Preferences.last_updated p).

Definition put_feedback_history (l : list FeedbackRecord.t) (p : Preferences.t)
    : Preferences.t :=
  Preferences.mk (Preferences.preference_memory p) (Preferences.pending_updates p)
    (Preferences.query_history p) l
    (Preferences.language p) (Preferences.search_mode p)
    (Preferences.max_workers p) (Preferences.save_to_local p)
    (Preferences.output_dir p) (Preferences.save_results p)
    (Preferences.max_display p) (Preferences.auto_summary p)
    (Preferences.arxiv_categories p) (Preferences.last_updated p).

Definition put_language (l : option str) (p : Preferences.t) : Preferences.t :=
  Preferences.mk (Preferences.preference_memory p) (Preferences.pending_updates p)
    (Preferences.query_history p) (Preferences.feedback_history p)
    l (Preferences.search_mode p)
    (Preferences.max_workers p) (Preferences.save_to_local p)
    (Preferences.output_dir p) (Preferences.save_results p)
    (Preferences.max_display p) (Preferences.auto_summary p)
    (Preferences.arxiv_categories p) (Preferences.last_updated p).

(** [try: body except (C1, C2, ...): handler]: other exceptions go on. *)
Definition try_except_of {A} (classes : list string) (body : M A)
    (handler : exn → M A) : M A := λ w,
  match body w with
  | (Ok a, w') => (Ok a, w')
  | (Raise e, w') =>
      if bool_decide (exn_class e ∈ classes) then handler e w' else (Raise e, w')
  end.

(** [_load_preferences]: the file is held as the JSON object it parses to,
    so [json.load] does not fail here; the warning it prints is left out. *)
Definition _load_preferences : M Preferences.t :=
  stored ← gets file;
  match stored with
  | Some data =>
      try_except_of ["JSONDecodeError"; "KeyError"]
        (lift_res (Preferences.from_dict data))
        (λ _, mret Preferences.empty)
  | None => mret Preferences.empty
  end.

(** [PreferenceManager.__init__] *)
Definition __init__ : M unit :=
  loaded ← _load_preferences;
  modify (with_preferences (λ _, loaded)).

Definition set_language (language : str) (save : bool) : M unit :=
  modify (with_preferences (put_language (Some language)));;
  if save then save_preferences else mret ().

Definition get_language : M (option str) :=
  gets (λ w, Preferences.language (preferences w)).

Definition add_query_record (topic time_range : str) (results_count : Z)
    (save : bool) : M unit :=
  timestamp ← now_isoformat;
  let record := QueryRecord.mk timestamp topic time_range results_count in
  modify (with_preferences (λ p,
    put_query_history (Preferences.query_history p ++ [record]) p));;
  history ← gets (λ w, Preferences.query_history (preferences w));
  (if bool_decide (50 < length history)
   then modify (with_preferences (put_query_history (last_n 50 history)))
   else mret ());;
  if save then save_preferences else mret ().

Definition add_feedback (paper_id paper_title feedback_type feedback_reason : str)
    (save : bool) : M unit :=
  timestamp ← now_isoformat;
  let record :=
    FeedbackRecord.mk timestamp paper_id paper_title feedback_type feedback_reason in
  modify (with_preferences (λ p,
    put_feedback_history (Preferences.feedback_history p ++ [record]) p));;
  history ← gets (λ w, Preferences.feedback_history (preferences w));
  (if bool_decide (100 < length history)
   then modify (with_preferences (put_feedback_history (last_n 100 history)))
   else mret ());;
  if save then save_preferences else mret ().

Definition get_preference_context : M str :=
  preference_memory ← gets (λ w, Preferences.preference_memory (preferences w));
  if negb (bool_decide (preference_memory = []))
  then mret ("User Preferences:" +++ nl +++ preference_memory)
  else mret (lit "").

Definition get_preference_summary : M str :=
  preference_memory ← gets (λ w, Preferences.preference_memory (preferences w));
  if negb (bool_decide (preference_memory = []))
  then mret preference_memory
  else mret (lit "No preference records found").

Definition clear_memory (save : bool) : M unit :=
  modify (with_preferences (set_preference_memory (lit "")));;
  modify (with_preferences (set_pending_updates []));;
  if save then save_preferences else mret ().

Definition clear_history (save : bool) : M unit :=
  modify (with_preferences (put_query_history []));;
  modify (with_preferences (put_feedback_history []));;
  if save then save_preferences else mret ().

Definition clear_all (save : bool) : M unit :=
  modify (with_preferences (λ _, Preferences.empty));;
  if save then save_preferences else mret ().

(** The legacy methods take [save] and never pass it on:
    [add_preference_update] runs with its default [save=True]. *)
Definition legacy_update (label : str) (text : str) (save : bool) : M unit :=
  if negb (bool_decide (text = [])) && negb (bool_decide (strip text = []))
  then add_preference_update (label +++ text) true
  else mret ().

Definition add_interested_keyword (keyword : str) (save : bool) : M unit :=
  legacy_update "User is interested in: " keyword save.
Definition add_not_interested_keyword (keyword : str) (save : bool) : M unit :=
  legacy_update "User is NOT interested in: " keyword save.
Definition add_interested_topic (topic : str) (save : bool) : M unit :=
  legacy_update "User is interested in topic: " topic save.
Definition add_not_interested_topic (topic : str) (save : bool) : M unit :=
  legacy_update "User wants to avoid topic: " topic save.
Definition set_custom_preferences (description : str) (save : bool) : M unit :=
  legacy_update "" description save.

(** ** The callers in [cli.py] *)

(** The "add" branch of the memory menu (cli.py, lines 1200-1212), on the
    text the prompt returned. *)
Definition memory_menu_add (new_pref : str) (on_memory_update : Callback) : M unit :=
  if negb (bool_decide (strip new_pref = [])) then
    add_preference_update ("User preference: " +++ strip new_pref) true;;
    schedule_memory_update ("User explicitly stated: " +++ strip new_pref)
      (Some on_memory_update)
  else mret ().

(** The test of the "view" branches (cli.py, lines 1187-1198 and 2721-2730):
    is the memory panel shown? *)
Definition memory_panel_shown : M bool :=
  memory ← get_preference_context;
  mret (negb (bool_decide (memory = [])) && negb (bool_decide (strip memory = []))).


(** ** [LLMClient] *)

Module LLMClient.



(** The three loops of [chat] that turn OpenAI messages into Gemini
    contents; a message and a content are [(role, text)]. *)
Fixpoint system_instruction (messages : list (str * str)) : option str :=
  match messages with
  | [] => None
  | (role, content) :: rest =>
      if bool_decide (role = lit "system") then Some content
      else system_instruction rest
  end.

Fixpoint first_user_idx (i : nat) (messages : list (str * str)) : option nat :=
  match messages with
  | [] => None
  | (role, _) :: rest =>
      if bool_decide (role = lit "user") then Some i
      else first_user_idx (S i) rest
  end.

Definition nonempty (o : option str) : bool :=
  match o with Some (_ :: _) => true | _ => false end.

Fixpoint build (sys : option str) (idx : option nat) (i : nat)
    (messages : list (str * str)) : list (str * str) :=
  match messages with
  | [] => []
  | (role, content) :: rest =>
      if bool_decide (role = lit "system") then build sys idx (S i) rest
      else
        let role' : str := if bool_decide (role = lit "user") then "user" else "model" in
        let text :=
          if bool_decide (idx = Some i) && nonempty sys
          then default [] sys +++ nl +++ nl +++ content
          else content in
        (role', text) :: build sys idx (S i) rest
  end.

Definition contents (messages : list (str * str)) : list (str * str) :=
  let sys := system_instruction messages in
  let idx := first_user_idx 0 messages in
  let contents := build sys idx 0 messages in
  if bool_decide (contents = []) && nonempty sys
  then contents ++ [(lit "user", default [] sys)]
  else contents.
End LLMClient.

(** The end of [_process_memory_update], from the point where the new text
    is settled: commit, save, report; on an exception, requeue [drained]. *)
Definition commit (drained : list str) (new_memory : str) (notification : option str)
    : M MergeResult :=
  try_except
    (modify (with_preferences (set_preference_memory new_memory));;
     save_preferences;;
     mret (Success notification))
    (λ e,
       modify (with_preferences (λ p,
         set_pending_updates (drained ++ Preferences.pending_updates p) p));;
       mret (Error (exn_msg e))).

(** A result that raises at most a TypeError, or leaves the typed model. *)
Definition type_errors_only {A} (r : res A) : Prop :=
  ∀ e, r = Raise e → e = TypeError ∨ e = IllTyped.

(** The messages that are not system messages, as contents: the role
    "user" stays, every other role becomes "model". *)
Definition plain_contents (messages : list (str * str)) : list (str * str) :=
  omap (λ m : str * str,
          if bool_decide (m.1 = lit "system") then None
          else Some (if bool_decide (m.1 = lit "user") then lit "user" else lit "model",
                     m.2))
       messages.

(** An answer in the format the compression prompt asks for. *)
Definition formatted_answer (memory removed : str) : str :=
  "COMPRESSED_MEMORY:" +++ nl +++ memory +++ nl +++ nl +++
  "REMOVED_TOPICS (if any were removed):" +++ nl +++ removed.

(** ** Strings *)

Lemma lstrip_nil_iff (s : str) : lstrip s = [] ↔ forallb isspace s = true.
Proof.
  induction s as [|c s IH]; simpl; [done|].
  destruct (isspace c); simpl; [done|].
  split; discriminate.
Qed.

Lemma rstrip_nil_iff (s : str) : rstrip s = [] ↔ forallb isspace s = true.
Proof.
  induction s as [|c s IH]; simpl; [done|].
  destruct (rstrip s) as [|r rs] eqn:E.
  - destruct (isspace c); simpl.
    + by rewrite <- IH.
    + split; discriminate.
  - split; [discriminate|].
    intros [_ H]%andb_true_iff. apply IH in H. discriminate.
Qed.

Lemma forallb_lstrip (s : str) :
  forallb isspace (lstrip s) = forallb isspace s.
Proof.
  induction s as [|c s IH]; simpl; [done|].
  destruct (isspace c) eqn:E; simpl; [done|]. by rewrite E.
Qed.

Lemma strip_nil_iff (s : str) : strip s = [] ↔ forallb isspace s = true.
Proof. unfold strip. by rewrite rstrip_nil_iff, forallb_lstrip. Qed.

Lemma strip_nil_false (s : str) :
  forallb isspace s = false → strip s ≠ [].
Proof. intros H E%strip_nil_iff. congruence. Qed.

Lemma blank_test (s : str) :
  negb (bool_decide (s = [])) && negb (bool_decide (strip s = []))
  = negb (forallb isspace s).
Proof.
  destruct (forallb isspace s) eqn:E.
  - apply strip_nil_iff in E. rewrite E. simpl. by rewrite andb_false_r.
  - pose proof (strip_nil_false _ E) as Hs.
    assert (s ≠ []) by (intros ->; done).
    by rewrite !bool_decide_eq_false_2.
Qed.

Lemma startswith_true (p s : str) :
  startswith p s = true → s = p ++ drop (length p) s.
Proof.
  revert s. induction p as [|a p IH]; intros [|b s]; simpl; try done.
  intros [->%N.eqb_eq H]%andb_true_iff. f_equal. by apply IH.
Qed.

Lemma split1_found (sep s : str) :
  contains sep s = true →
  ∃ pre post, split1 sep s = [pre; post] ∧ first_occurrence sep s pre post.
Proof.
  induction s as [|c s IH]; simpl.
  - rewrite orb_false_r. intros H. rewrite H.
    exists [], (drop (length sep) []). split; [done|]. split.
    + simpl. by apply startswith_true.
    + simpl. lia.
  - destruct (startswith sep (c :: s)) eqn:E; simpl.
    + intros _. exists [], (drop (length sep) (c :: s)). split; [done|]. split.
      * by apply startswith_true.
      * simpl. lia.
    + intros (pre & post & -> & -> & Hleft)%IH.
      exists (c :: pre), post. split; [done|]. split; [done|].
      intros [|i] Hi; simpl in *; [done|]. apply Hleft. lia.
Qed.

Lemma split1_absent (sep s : str) :
  contains sep s = false → split1 sep s = [s].
Proof.
  induction s as [|c s IH]; simpl.
  - rewrite orb_false_r. by intros ->.
  - intros [-> H]%orb_false_iff. by rewrite (IH H).
Qed.

Lemma len_slice_to (n : nat) (s : str) : len (slice_to n s) ≤ n.
Proof. unfold len, slice_to. rewrite length_take. lia. Qed.

(** ** Saving and enqueueing *)

Lemma save_preferences_frame (w : World) :
  frame (save_preferences w).2 = frame w ∧
  pending (save_preferences w).2 = pending w.
Proof. done. Qed.

Lemma add_preference_update_blank (update_text : str) (save : bool) (w : World) :
  forallb isspace update_text = true →
  add_preference_update update_text save w = (Ok (), w).
Proof.
  intros H. unfold add_preference_update. by rewrite blank_test, H.
Qed.

Lemma add_preference_update_frame (update_text : str) (save : bool) (w : World) :
  frame (add_preference_update update_text save w).2 = frame w ∧
  pending (add_preference_update update_text save w).2
  = pending w ++ enqueued [update_text].
Proof.
  unfold add_preference_update, enqueued. rewrite blank_test. simpl.
  destruct (forallb isspace update_text); simpl.
  - by rewrite app_nil_r.
  - by destruct save.
Qed.

Lemma enqueued_app (l1 l2 : list str) :
  enqueued (l1 ++ l2) = enqueued l1 ++ enqueued l2.
Proof. apply omap_app. Qed.

Lemma meanwhile_frame (l : list str) (w : World) :
  let w' := foldl (λ w f, (add_preference_update f true w).2) w l in
  frame w' = frame w ∧ pending w' = pending w ++ enqueued l.
Proof.
  revert w. induction l as [|f l IH]; intros w; cbn [foldl].
  - by rewrite app_nil_r.
  - destruct (IH (add_preference_update f true w).2) as [Hf Hp].
    destruct (add_preference_update_frame f true w) as [Hf' Hp'].
    split; [congruence|].
    rewrite Hp, Hp'. change (f :: l) with ([f] ++ l).
    by rewrite enqueued_app, app_assoc.
Qed.

(** One request: what comes back and what the world looks like then. *)
Lemma chat_run (msgs : list (str * str)) (t : Q) (w : World) :
  let w' := (chat msgs t w).2 in
  (chat msgs t w).1 = reply (next_step (replies w)) ∧
  memory_text w' = memory_text w ∧
  Preferences.language (preferences w') = Preferences.language (preferences w) ∧
  pending w' = pending w ++ enqueued (meanwhile (next_step (replies w))) ∧
  chat_log w' = chat_log w ++ [mkCall msgs t] ∧
  replies w' = tail (replies w) ∧
  api_key w' = api_key w ∧
  threads w' = threads w ∧
  notifications w' = notifications w.
Proof.
  unfold chat. cbn [fst snd].
  match goal with
  | |- context [foldl ?f ?w0 ?l] => destruct (meanwhile_frame l w0) as [Hf Hp]
  end.
  cbv zeta in Hf, Hp. unfold frame in Hf. simplify_eq. rewrite Hp. done.
Qed.

(** ** Parsing a compression response *)

Arguments lit : simpl never.
Arguments contains : simpl never.
Arguments strip : simpl never.

Lemma parse_compressed_spec (response : str) :
  ∃ compressed removed,
    parse_compressed response = Ok (compressed, removed) ∧
    parses_to strip response compressed removed.
Proof.
  unfold parse_compressed, parses_to.
  destruct (contains "COMPRESSED_MEMORY:" response) eqn:E1;
    [|by eexists _, _; split; [reflexivity|]].
  destruct (split1_found _ _ E1) as (pre & post & -> & H1). cbn.
  destruct (contains "REMOVED_TOPICS" post) eqn:E2.
  2:{ eexists _, _. split; [reflexivity|]. exists pre, post.
      split; [done|]. by rewrite E2. }
  destruct (split1_found _ _ E2) as (mid & rest & -> & H2). cbn.
  destruct (contains ":" rest) eqn:E3.
  - destruct (split1_found _ _ E3) as (label & report & -> & H3). cbn.
    eexists _, _. split; [reflexivity|]. exists pre, post. split; [done|].
    rewrite E2. exists mid, rest. rewrite E3.
    split; [done|]. split; [done|]. by exists label, report.
  - eexists _, _. split; [reflexivity|]. exists pre, post. split; [done|].
    rewrite E2. exists mid, rest. by rewrite E3.
Qed.

Lemma parse_compressed_absent (response : str) :
  contains "COMPRESSED_MEMORY:" response = false →
  parse_compressed response = Ok (strip response, []).
Proof. unfold parse_compressed. by intros ->. Qed.

(** ** The compression call *)

Arguments chat : simpl never.
Arguments merge_call : simpl never.
Arguments compress_call : simpl never.
Arguments parse_compressed : simpl never.
Arguments compress_notification : simpl never.
Arguments truncated_notification : simpl never.
Arguments save_preferences : simpl never.
Arguments lang_or_en : simpl never.

Lemma compress_memory_run (memory : str) (w : World) :
  let request := compress_call (lang_or_en w) memory in
  _compress_memory memory w
  = (Ok (compressed_from memory (reply (next_step (replies w)))),
     (chat (messages request) (temperature request) w).2).
Proof.
  unfold _compress_memory, try_except, mbind, M_bind, gets, lift_res, mret, M_ret.
  cbv zeta.
  destruct (chat_run (messages (compress_call (lang_or_en w) memory))
              (temperature (compress_call (lang_or_en w) memory)) w) as [Hr _].
  destruct (chat _ _ w) as [r w'] eqn:E. cbn [fst snd] in *. subst r.
  unfold compressed_from.
  destruct (reply (next_step (replies w))) as [response|e]; [|done].
  destruct (parse_compressed response) as [[c r]|e]; done.
Qed.

(** ** The merge *)

Lemma process_no_updates (w : World) :
  pending w = [] → _process_memory_update w = (Ok NoUpdates, w).
Proof.
  intros H.
  unfold _process_memory_update, mbind, M_bind, gets, modify, mret, M_ret.
  fold (pending w). rewrite H. cbn.
  destruct w as [p]; destruct p; cbn in *. by subst.
Qed.

Ltac run_merge w Hp :=
  unfold _process_memory_update, try_except, mbind, M_bind, gets, modify, mret, M_ret;
  cbv zeta; fold (pending w); rewrite bool_decide_eq_false_2 by exact Hp;
  change (lang_or_en (with_preferences (set_pending_updates []) w))
    with (lang_or_en w);
  change (Preferences.preference_memory
            (preferences (with_preferences (set_pending_updates []) w)))
    with (memory_text w).

Lemma process_fail (w : World) (e : exn) :
  pending w ≠ [] →
  reply (next_step (replies w)) = Raise e →
  ∃ w',
    _process_memory_update w = (Ok (Error (exn_msg e)), w') ∧
    pending w' = pending w ++ enqueued (meanwhile (next_step (replies w))) ∧
    memory_text w' = memory_text w ∧
    lang_or_en w' = lang_or_en w ∧
    chat_log w' = chat_log w ++ [merge_call (lang_or_en w) (memory_text w) (pending w)] ∧
    notifications w' = notifications w.
Proof.
  intros Hp Hr. run_merge w Hp.
  set (request := merge_call _ _ _).
  set (w0 := with_preferences _ w).
  destruct (chat_run (messages request) (temperature request) w0)
    as (H1 & H2 & H3 & H4 & H5 & H6 & H7 & H8 & H9).
  destruct (chat _ _ w0) as [r w1] eqn:E. cbn [fst snd] in *.
  change (replies w0) with (replies w) in *. rewrite Hr in H1. subst r.
  eexists. split; [reflexivity|].
  change (pending w0) with (@nil str) in H4. rewrite app_nil_l in H4.
  repeat split.
  - change (pending (with_preferences ?f w1)) with (pending w ++ pending w1).
    by rewrite H4.
  - exact H2.
  - unfold lang_or_en. cbn. by rewrite H3.
  - exact H5.
  - exact H9.
Qed.

(** The tail of a merge whose text is settled: commit, save, report. *)
Lemma commit_run (pending0 : list str) (new_memory : str) (n : option str) (w : World) :
  ∃ r w',
    (let (r0, w'0) :=
       let (r0, w'0) :=
         save_preferences (with_preferences (set_preference_memory new_memory) w) in
       match r0 with
       | Ok _ => (Ok (Success n), w'0)
       | Raise e => (Raise e, w'0)
       end in
     match r0 with
     | Ok a => (Ok a, w'0)
     | Raise e =>
         (Ok (Error (exn_msg e)),
          with_preferences (λ p,
            set_pending_updates (pending0 ++ Preferences.pending_updates p) p) w'0)
     end) = (Ok r, w') ∧
    (r = Success n ∨ ∃ m, r = Error m) ∧
    memory_text w' = new_memory ∧
    chat_log w' = chat_log w ∧
    notifications w' = notifications w.
Proof.
  set (w1 := with_preferences _ w).
  destruct (save_preferences_frame w1) as [Hf _].
  destruct (save_preferences w1) as [[[]|e] w2]; cbn [snd] in Hf;
    unfold frame in Hf; simplify_eq; eexists _, _; (split; [reflexivity|]);
    eauto 10.
Qed.

Lemma process_small (w : World) (response : str) :
  pending w ≠ [] →
  reply (next_step (replies w)) = Ok response →
  len (strip response) ≤ MAX_MEMORY_LENGTH →
  ∃ r w',
    _process_memory_update w = (Ok r, w') ∧
    (r = Success None ∨ ∃ m, r = Error m) ∧
    memory_text w' = strip response ∧
    chat_log w' = chat_log w ++ [merge_call (lang_or_en w) (memory_text w) (pending w)] ∧
    notifications w' = notifications w.
Proof.
  intros Hp Hr Hlen. run_merge w Hp.
  set (request := merge_call _ _ _).
  set (w0 := with_preferences _ w).
  destruct (chat_run (messages request) (temperature request) w0)
    as (H1 & H2 & H3 & H4 & H5 & H6 & H7 & H8 & H9).
  destruct (chat _ _ w0) as [r w1] eqn:E. cbn [fst snd] in *.
  change (replies w0) with (replies w) in *. rewrite Hr in H1. subst r.
  rewrite bool_decide_eq_false_2 by lia.
  destruct (commit_run (pending w) (strip response) None w1)
    as (r & w' & -> & Hres & Hm & Hl & Hn).
  exists r, w'. repeat split; try done.
  - by rewrite Hl, H5.
  - by rewrite Hn, H9.
Qed.

Lemma process_big (w : World) (response : str) :
  pending w ≠ [] →
  reply (next_step (replies w)) = Ok response →
  MAX_MEMORY_LENGTH < len (strip response) →
  let result :=
    compressed_from (strip response) (reply (next_step (tail (replies w)))) in
  ∃ r w',
    _process_memory_update w = (Ok r, w') ∧
    (r = Success (Some (CompressResult.notification result)) ∨ ∃ m, r = Error m) ∧
    memory_text w' = CompressResult.memory result ∧
    chat_log w' = chat_log w ++ [merge_call (lang_or_en w) (memory_text w) (pending w);
                                 compress_call (lang_or_en w) (strip response)] ∧
    notifications w' = notifications w.
Proof.
  intros Hp Hr Hlen result. run_merge w Hp.
  set (request := merge_call _ _ _).
  set (w0 := with_preferences _ w).
  destruct (chat_run (messages request) (temperature request) w0)
    as (H1 & H2 & H3 & H4 & H5 & H6 & H7 & H8 & H9).
  destruct (chat _ _ w0) as [r w1] eqn:E. cbn [fst snd] in *.
  change (replies w0) with (replies w) in *. rewrite Hr in H1. subst r.
  rewrite bool_decide_eq_true_2 by lia.
  rewrite compress_memory_run. cbv zeta.
  assert (lang_or_en w1 = lang_or_en w) as ->.
  { unfold lang_or_en. by rewrite H3. }
  set (request2 := compress_call _ _).
  destruct (chat_run (messages request2) (temperature request2) w1)
    as (_ & G2 & G3 & G4 & G5 & G6 & G7 & G8 & G9).
  destruct (chat _ _ w1) as [r2 w2] eqn:E2. cbn [fst snd] in *.
  rewrite H6. fold result.
  destruct (commit_run (pending w) (CompressResult.memory result)
              (Some (CompressResult.notification result)) w2)
    as (r & w' & -> & Hres & Hm & Hl & Hn).
  exists r, w'. repeat split; try done.
  - rewrite Hl, G5, H5. by rewrite <- app_assoc.
  - by rewrite Hn, G9, H9.
Qed.

(** Whatever the model answers, a merge with fragments to merge sends its
    request first. *)
Lemma process_request (w : World) :
  pending w ≠ [] →
  ∃ rest,
    chat_log (_process_memory_update w).2
    = chat_log w ++ merge_call (lang_or_en w) (memory_text w) (pending w) :: rest.
Proof.
  intros Hp.
  destruct (reply (next_step (replies w))) as [response|e] eqn:Hr.
  - destruct (decide (len (strip response) ≤ MAX_MEMORY_LENGTH)) as [Hl|Hl].
    + destruct (process_small w response Hp Hr Hl) as (r & w' & -> & _ & _ & Hlog & _).
      exists []. by rewrite <- Hlog.
    + destruct (process_big w response Hp Hr ltac:(lia))
        as (r & w' & -> & _ & _ & Hlog & _).
      eexists [_]. by rewrite <- Hlog.
  - destruct (process_fail w e Hp Hr) as (w' & -> & _ & _ & _ & Hlog & _).
    exists []. by rewrite <- Hlog.
Qed.

(** A merge never raises and never calls back itself; it reports a
    notification only after compressing an over-long text. *)
Lemma process_cases (w : World) :
  ∃ r w',
    _process_memory_update w = (Ok r, w') ∧
    notifications w' = notifications w ∧
    ∀ n, r = Success (Some n) →
      pending w ≠ [] ∧
      ∃ response,
        reply (next_step (replies w)) = Ok response ∧
        MAX_MEMORY_LENGTH < len (strip response).
Proof.
  destruct (decide (pending w = [])) as [Hp|Hp].
  { rewrite (process_no_updates w Hp). by eexists _, _. }
  destruct (reply (next_step (replies w))) as [response|e] eqn:Hr.
  - destruct (decide (len (strip response) ≤ MAX_MEMORY_LENGTH)) as [Hl|Hl].
    + destruct (process_small w response Hp Hr Hl)
        as (r & w' & -> & Hres & _ & _ & Hn).
      exists r, w'. split; [done|]. split; [done|].
      intros n ->. by destruct Hres as [?|[? ?]].
    + destruct (process_big w response Hp Hr ltac:(lia))
        as (r & w' & -> & Hres & _ & _ & Hn).
      exists r, w'. split; [done|]. split; [done|].
      intros n _. split; [done|]. exists response. split; [done|lia].
  - destruct (process_fail w e Hp Hr) as (w' & -> & _ & _ & _ & _ & Hn).
    eexists _, _. split; [done|]. by split.
Qed.

(** ** The claims about the merge protocol *)

(** X25: where the size bound does hold: after a merge whose text needed no
    compression, or whose compression request failed and fell back to
    truncation, the memory text has at most [MAX_MEMORY_LENGTH] characters. *)
Lemma merge_bound_without_model_compression (w : World) (response : str) :
  pending w ≠ [] →
  reply (next_step (replies w)) = Ok response →
  (len (strip response) ≤ MAX_MEMORY_LENGTH ∨
   ∃ e, reply (next_step (tail (replies w))) = Raise e) →
  len (memory_text (_process_memory_update w).2) ≤ MAX_MEMORY_LENGTH.
Proof.
  intros Hp Hr Hcase.
  destruct (decide (len (strip response) ≤ MAX_MEMORY_LENGTH)) as [Hl|Hl].
  - destruct (process_small w response Hp Hr Hl) as (r & w' & -> & _ & Hm & _).
    cbn [snd]. by rewrite Hm.
  - destruct Hcase as [?|[e He]]; [done|].
    destruct (process_big w response Hp Hr ltac:(lia)) as (r & w' & -> & _ & Hm & _).
    cbn [snd]. rewrite Hm, He. cbn [compressed_from CompressResult.memory].
    pose proof (len_slice_to TARGET_MEMORY_LENGTH (strip response)).
    unfold TARGET_MEMORY_LENGTH, MAX_MEMORY_LENGTH in *. lia.
Qed.

(** Claim C1, at the input where the code departs from it: the merged text
    has 2001 characters, the compression request succeeds and its answer,
    in the format asked for, carries a text of 2001 characters.  The merge
    reports success and commits that text as the memory, above
    [MAX_MEMORY_LENGTH]. *)
Theorem merge_commits_oversized_compression :
  let w := store_with [] [lit "likes RL"]
             [mkStep [] (Ok (repeat 97%N 2001));
              mkStep [] (Ok ("COMPRESSED_MEMORY:" +++ nl +++ repeat 98%N 2001))] in
  ∃ n w',
    _process_memory_update w = (Ok (Success (Some n)), w') ∧
    memory_text w' = repeat 98%N 2001 ∧
    MAX_MEMORY_LENGTH < len (memory_text w').
Proof.
  eexists _, _. split; [vm_compute; reflexivity|].
  split; [reflexivity|]. vm_compute. lia.
Qed.

(** Claim C7: [_process_memory_update] with no pending update returns the
    no_updates result at once and leaves the whole world as it was: the
    memory text and [last_updated], the file, and the log of requests to the
    model, to which nothing is sent.  It does not raise. *)
Theorem merge_without_updates_is_noop (w : World) :
  pending w = [] →
  ∃ w',
    _process_memory_update w = (Ok NoUpdates, w') ∧
    w' = w ∧
    memory_text w' = memory_text w ∧
    Preferences.last_updated (preferences w') = Preferences.last_updated (preferences w) ∧
    chat_log w' = chat_log w.
Proof.
  intros H. exists w. by rewrite (process_no_updates w H).
Qed.

Lemma merge_without_updates_is_noop_witness :
  ∃ w',
    _process_memory_update (store_with (lit "likes RL") [] []) = (Ok NoUpdates, w') ∧
    w' = store_with (lit "likes RL") [] [] ∧
    memory_text w' = lit "likes RL" ∧
    Preferences.last_updated (preferences w') = [] ∧
    chat_log w' = [].
Proof.
  apply (merge_without_updates_is_noop (store_with (lit "likes RL") [] [])).
  reflexivity.
Defined.

(** Claim C2: when the request of a merge fails, the drained fragments go
    back in front of the queue in their order, ahead of the fragments
    enqueued while the request was in flight, the memory text is as before
    and the result is the error.  A fragment [c] enqueued afterwards comes
    last, and the request of the next merge carries the fragments in that
    order: [a, b] pending, a failed merge, then [c], gives [a, b, c]. *)
Theorem merge_failure_requeues_in_front (w : World) (e : exn) (c : str) (save : bool) :
  pending w ≠ [] →
  reply (next_step (replies w)) = Raise e →
  forallb isspace c = false →
  let during := enqueued (meanwhile (next_step (replies w))) in
  let w1 := (_process_memory_update w).2 in
  let w2 := (add_preference_update c save w1).2 in
  (_process_memory_update w).1 = Ok (Error (exn_msg e)) ∧
  pending w1 = pending w ++ during ∧
  memory_text w1 = memory_text w ∧
  pending w2 = pending w ++ during ++ [strip c] ∧
  chat_log (_process_memory_update w2).2 !! S (length (chat_log w))
  = Some (merge_call (lang_or_en w) (memory_text w) (pending w ++ during ++ [strip c])).
Proof.
  intros Hp Hr Hc during w1 w2.
  destruct (process_fail w e Hp Hr) as (w' & Hrun & Hq & Hm & Hlang & Hlog & _).
  subst w2 w1. rewrite Hrun. cbn [fst snd].
  destruct (add_preference_update_frame c save w') as [Hf Hq2].
  set (w2 := (add_preference_update c save w').2) in *.
  assert (pending w2 = pending w ++ during ++ [strip c]) as Hq3.
  { rewrite Hq2, Hq. unfold enqueued at 2. cbn. rewrite Hc.
    by rewrite <- app_assoc. }
  repeat split; try done.
  assert (pending w2 ≠ []) as Hp2.
  { rewrite Hq3. destruct (pending w); [done|discriminate]. }
  destruct (process_request w2 Hp2) as [rest ->].
  unfold frame in Hf. injection Hf as Fm Fl _ _ Flog _ _.
  assert (lang_or_en w2 = lang_or_en w) as ->.
  { rewrite <- Hlang. unfold lang_or_en. by rewrite Fl. }
  rewrite Fm, Hm, Hq3, Flog, Hlog.
  rewrite lookup_app_r; rewrite length_app; cbn; [|lia].
  by replace (S (length (chat_log w)) - (length (chat_log w) + 1)) with 0 by lia.
Qed.

Lemma merge_failure_requeues_in_front_witness :
  let w := store_with [] [lit "a"; lit "b"] [mkStep [] (Raise ConnectionError)] in
  let w1 := (_process_memory_update w).2 in
  let w2 := (add_preference_update (lit " c ") true w1).2 in
  (_process_memory_update w).1 = Ok (Error (exn_msg ConnectionError)) ∧
  pending w1 = [lit "a"; lit "b"] ∧
  memory_text w1 = [] ∧
  pending w2 = [lit "a"; lit "b"; lit "c"] ∧
  chat_log (_process_memory_update w2).2 !! 1
  = Some (merge_call (lit "en") [] [lit "a"; lit "b"; lit "c"]).
Proof.
  intros w.
  apply (merge_failure_requeues_in_front w ConnectionError (lit " c ") true).
  - discriminate.
  - reflexivity.
  - reflexivity.
Defined.

(** Claim C3: [_compress_memory] never raises.  When its request to the
    model fails it answers with the first 1500 characters of the text it was
    given and a notification that contains "truncated". *)
Theorem compression_failure_truncates (memory : str) (w : World) :
  (∃ result w', _compress_memory memory w = (Ok result, w')) ∧
  ∀ e, reply (next_step (replies w)) = Raise e →
    ∃ note,
      (_compress_memory memory w).1 = Ok (CompressResult.mk (take 1500 memory) note) ∧
      contains "truncated" note = true.
Proof.
  rewrite compress_memory_run. cbv zeta. split; [by eexists _, _|].
  intros e ->. by exists truncated_notification.
Qed.

Lemma compression_failure_truncates_witness :
  ∃ note,
    (_compress_memory (repeat 97%N 2100)
       (store_with [] [] [mkStep [] (Raise ConnectionError)])).1
    = Ok (CompressResult.mk (repeat 97%N 1500) note) ∧
    contains "truncated" note = true.
Proof.
  refine (proj2 (compression_failure_truncates (repeat 97%N 2100)
                   (store_with [] [] [mkStep [] (Raise ConnectionError)]))
            ConnectionError _).
  reflexivity.
Defined.

(** Claim C4: a merge whose request succeeds sends the compression request
    exactly when the merged text, the stripped answer, is longer than 2000
    characters: the requests it adds to the log are the merge request alone
    for a text of at most 2000 characters, and the merge request followed by
    the compression request for that text otherwise.  No compression request
    is a merge request. *)
Theorem compression_iff_above_ceiling (w : World) (response : str) :
  pending w ≠ [] →
  reply (next_step (replies w)) = Ok response →
  chat_log (_process_memory_update w).2
  = chat_log w ++
    merge_call (lang_or_en w) (memory_text w) (pending w) ::
    (if bool_decide (2000 < len (strip response))
     then [compress_call (lang_or_en w) (strip response)] else [])
  ∧ ∀ lang memory lang' memory' fragments,
      compress_call lang memory ≠ merge_call lang' memory' fragments.
Proof.
  intros Hp Hr. split; [|by intros ????? [=]].
  case_bool_decide as Hl.
  - destruct (process_big w response Hp Hr Hl) as (r & w' & -> & _ & _ & Hlog & _).
    exact Hlog.
  - destruct (process_small w response Hp Hr ltac:(unfold MAX_MEMORY_LENGTH; lia))
      as (r & w' & -> & _ & _ & Hlog & _).
    exact Hlog.
Qed.

Lemma compression_iff_above_ceiling_witness :
  let w := store_with [] [lit "likes RL"]
             [mkStep [] (Ok (repeat 97%N 2001)); mkStep [] (Ok (lit "short"))] in
  chat_log (_process_memory_update w).2
  = [merge_call (lit "en") [] [lit "likes RL"];
     compress_call (lit "en") (repeat 97%N 2001)].
Proof.
  intros w.
  refine (proj1 (compression_iff_above_ceiling w (repeat 97%N 2001) _ _)).
  - discriminate.
  - reflexivity.
Defined.

(** Claim C5 as stated, with the cut pieces taken as they are, fails on an
    answer in the format the prompt asks for: the text after the marker
    starts with a newline, and the parser drops it. *)
Lemma compression_parse_untrimmed_counterexample :
  let response := "COMPRESSED_MEMORY:" +++ nl +++ "abc" in
  parse_compressed response = Ok (lit "abc", []) ∧
  ¬ parses_to (λ s, s) response (lit "abc") [].
Proof.
  split; [reflexivity|].
  unfold parses_to.
  replace (contains "COMPRESSED_MEMORY:" _) with true by reflexivity.
  intros (pre & post & [Heq Hleft] & H).
  destruct pre as [|c pre]; [|by specialize (Hleft 0 ltac:(simpl; lia))].
  injection Heq as <-.
  replace (contains "REMOVED_TOPICS" _) with false in H by reflexivity.
  by destruct H.
Qed.

(** Claim C5, amended: every response parses, and the pieces are stripped of
    leading and trailing whitespace.  With the [COMPRESSED_MEMORY:] marker,
    the compressed text is what follows its first occurrence, up to the
    first [REMOVED_TOPICS] after it when there is one, and the
    removed-topics report is what follows the first colon after that (empty
    without a colon).  Without the marker the compressed text is the whole
    response, stripped, the report is empty and the notification names no
    removal. *)
Theorem compression_response_parsing (response : str) :
  ∃ compressed removed,
    parse_compressed response = Ok (compressed, removed) ∧
    parses_to strip response compressed removed ∧
    (contains "COMPRESSED_MEMORY:" response = false →
     compressed = strip response ∧
     compress_notification removed
     = notice_mark +++ " Memory compressed to fit size limit.").
Proof.
  destruct (parse_compressed_spec response) as (c & r & Hrun & Hspec).
  exists c, r. split; [done|]. split; [done|].
  intros Habs. rewrite (parse_compressed_absent _ Habs) in Hrun.
  by simplify_eq.
Qed.

Lemma compression_response_parsing_witness :
  ∃ compressed removed,
    parse_compressed (lit "keep RL, drop the rest") = Ok (compressed, removed) ∧
    compressed = lit "keep RL, drop the rest" ∧
    compress_notification removed
    = notice_mark +++ " Memory compressed to fit size limit.".
Proof.
  destruct (compression_response_parsing (lit "keep RL, drop the rest"))
    as (c & r & Hrun & _ & Habs).
  exists c, r. split; [exact Hrun|].
  apply Habs. reflexivity.
Defined.

(** ** The scheduled merge *)

Lemma run_update_cases (on_complete : option Callback) (w : World) :
  (_run_update on_complete w).1 = Ok () ∧
  (notifications (_run_update on_complete w).2 = notifications w ∨
   ∃ n, notifications (_run_update on_complete w).2 = notifications w ++ [n] ∧
        is_Some on_complete ∧
        api_key w = true ∧
        (_process_memory_update w).1 = Ok (Success (Some n)) ∧
        pending w ≠ [] ∧
        ∃ response,
          reply (next_step (replies w)) = Ok response ∧
          MAX_MEMORY_LENGTH < len (strip response)).
Proof.
  unfold _run_update, try_except, mbind, M_bind, get_llm_client, mret, M_ret.
  destruct (api_key w) eqn:Hk; [|by split; [|left]].
  destruct (process_cases w) as (r & w' & Hrun & Hn & Hcomp).
  rewrite Hrun. cbn [fst].
  destruct on_complete as [f|]; [|by split; [|left; exact Hn]].
  destruct (get_notification r) as [[|c n]|] eqn:Hr;
    try (by split; [|left; exact Hn]).
  destruct r as [|[n'|]|]; simplify_eq/=.
  destruct (Hcomp (c :: n) eq_refl) as (Hp & response & Hreply & Hlen).
  unfold call.
  split; [by destruct (f (c :: n)) as [[]|e]|].
  right. exists (c :: n).
  split; [by destruct (f (c :: n)) as [[]|e]; cbn; rewrite Hn|].
  split; [by eexists|]. do 3 (split; [done|]). by exists response.
Qed.

(** Claim C6: [schedule_memory_update] does not call [on_complete] itself and
    starts at most the one thread that runs [_run_update].  That thread,
    from whatever world it starts in, never raises and calls [on_complete] at
    most once, and only with the notification of a merge that succeeded
    after compressing a text longer than 2000 characters: not when the merge
    fails, not when nothing was pending, not when the merged text needed no
    compression. *)
Theorem on_complete_only_after_compression
    (new_info : str) (on_complete : option Callback) (w0 w : World) :
  (notifications (schedule_memory_update new_info on_complete w0).2 = notifications w0 ∧
   (threads (schedule_memory_update new_info on_complete w0).2 = threads w0 ∨
    threads (schedule_memory_update new_info on_complete w0).2
    = threads w0 ++ [RunUpdate on_complete])) ∧
  (_run_update on_complete w).1 = Ok () ∧
  notifications (_run_update on_complete w).2 = notifications w ++ delivered on_complete w ∧
  length (delivered on_complete w) ≤ 1 ∧
  ∀ n, n ∈ delivered on_complete w →
    is_Some on_complete ∧
    (_process_memory_update w).1 = Ok (Success (Some n)) ∧
    pending w ≠ [] ∧
    ∃ response,
      reply (next_step (replies w)) = Ok response ∧
      2000 < len (strip response).
Proof.
  split.
  { unfold schedule_memory_update.
    destruct (_ || _); [by split; [|left]|].
    unfold mbind, M_bind, start_thread.
    destruct (add_preference_update_frame new_info true w0) as [Hf _].
    unfold frame in Hf. injection Hf as _ _ _ _ _ Ht Hn.
    destruct (add_preference_update new_info true w0) as [[[]|e] w1];
      cbn [fst snd threads notifications] in *; rewrite Hn, Ht; auto. }
  destruct (run_update_cases on_complete w) as [Hok Hcases].
  split; [done|]. unfold delivered.
  destruct Hcases as [->|(n & -> & Hcb & Hk & Hres & Hp & Hresp)].
  - rewrite drop_all, app_nil_r. split; [done|]. split; [simpl; lia|].
    by intros n ?%elem_of_nil.
  - rewrite drop_app_length. split; [done|]. split; [done|].
    by intros n' ->%list_elem_of_singleton.
Qed.

Lemma on_complete_only_after_compression_witness :
  let w := store_with [] [lit "likes RL"]
             [mkStep [] (Ok (repeat 97%N 2001));
              mkStep [] (Ok ("COMPRESSED_MEMORY:" +++ nl +++ "likes RL"))] in
  let n := notice_mark +++ " Memory compressed to fit size limit." in
  (_process_memory_update w).1 = Ok (Success (Some n)) ∧
  ∃ response,
    reply (next_step (replies w)) = Ok response ∧ 2000 < len (strip response).
Proof.
  intros w n.
  destruct (on_complete_only_after_compression [] (Some (λ _, Ok ())) w w)
    as (_ & _ & _ & _ & H).
  destruct (H n) as (_ & Hres & _ & Hresp).
  - vm_compute. apply list_elem_of_here.
  - split; [exact Hres|exact Hresp].
Defined.

(** ** Enqueueing *)

(** Claim C9: for an update text that is empty or all whitespace,
    [add_preference_update] changes nothing (no fragment, no save) and
    [schedule_memory_update] returns without enqueueing and without starting
    a thread.  For every other text both append the text stripped of its
    leading and trailing whitespace to the pending updates. *)
Theorem blank_updates_are_ignored
    (update_text : str) (save : bool) (on_complete : option Callback) (w : World) :
  (forallb isspace update_text = true →
   add_preference_update update_text save w = (Ok (), w) ∧
   schedule_memory_update update_text on_complete w = (Ok (), w)) ∧
  (forallb isspace update_text = false →
   pending (add_preference_update update_text save w).2
   = pending w ++ [strip update_text] ∧
   pending (schedule_memory_update update_text on_complete w).2
   = pending w ++ [strip update_text]).
Proof.
  split; intros H.
  - split; [by apply add_preference_update_blank|].
    unfold schedule_memory_update.
    apply strip_nil_iff in H.
    rewrite (bool_decide_eq_true_2 (strip update_text = [])) by done.
    by rewrite orb_true_r.
  - destruct (add_preference_update_frame update_text save w) as [_ Hp].
    destruct (add_preference_update_frame update_text true w) as [_ Hp'].
    unfold enqueued in Hp, Hp'. cbn in Hp, Hp'. rewrite H in Hp, Hp'.
    split; [exact Hp|].
    unfold schedule_memory_update.
    pose proof (strip_nil_false _ H) as Hs.
    assert (update_text ≠ []) as Hne by (intros ->; done).
    rewrite !bool_decide_eq_false_2 by done. cbn [orb].
    unfold mbind, M_bind, start_thread.
    by destruct (add_preference_update update_text true w) as [[[]|e] w1].
Qed.

Lemma blank_updates_are_ignored_witness :
  (add_preference_update (lit "  ") true (store_with [] [lit "a"] [])
   = (Ok (), store_with [] [lit "a"] []) ∧
   schedule_memory_update (lit "  ") None (store_with [] [lit "a"] [])
   = (Ok (), store_with [] [lit "a"] [])) ∧
  (pending (add_preference_update (lit " likes RL ") true (store_with [] [lit "a"] [])).2
   = [lit "a"; lit "likes RL"] ∧
   pending (schedule_memory_update (lit " likes RL ") None (store_with [] [lit "a"] [])).2
   = [lit "a"; lit "likes RL"]).
Proof.
  split.
  - apply (blank_updates_are_ignored (lit "  ") true None (store_with [] [lit "a"] [])).
    reflexivity.
  - apply (blank_updates_are_ignored (lit " likes RL ") true None
             (store_with [] [lit "a"] [])).
    reflexivity.
Defined.

(** ** Serialisation *)

Lemma mapM_as_str (l : list str) : mapM as_str (PStr <$> l) = Ok l.
Proof. induction l as [|x l IH]; [done|]. cbn. by rewrite IH. Qed.

Lemma mapM_query_records (l : list QueryRecord.t) :
  mapM QueryRecord.from_dict ((λ q, PDict (QueryRecord.to_dict q)) <$> l) = Ok l.
Proof.
  induction l as [|q l IH]; [done|].
  cbn [fmap list_fmap mapM]. rewrite IH. by destruct q.
Qed.

Lemma mapM_feedback_records (l : list FeedbackRecord.t) :
  mapM FeedbackRecord.from_dict ((λ f, PDict (FeedbackRecord.to_dict f)) <$> l) = Ok l.
Proof.
  induction l as [|f l IH]; [done|].
  cbn [fmap list_fmap mapM]. rewrite IH. by destruct f.
Qed.

Lemma migrated_memory_to_dict (p : Preferences.t) :
  Preferences.migrated_memory (Preferences.to_dict p)
  = Ok (PStr (Preferences.preference_memory p)).
Proof.
  unfold Preferences.migrated_memory.
  change (get_or "preference_memory" _ (Preferences.to_dict p))
    with (PStr (Preferences.preference_memory p)).
  cbn [truthy]. case_bool_decide as Hm; [|done].
  rewrite Hm. reflexivity.
Qed.

(** Claim C10: [from_dict] undoes [to_dict] on every [Preferences] value.
    The migration block leaves the memory of such a record alone: the record
    has none of the legacy fields. *)
Theorem from_dict_to_dict (p : Preferences.t) :
  Preferences.from_dict (Preferences.to_dict p) = Ok p ∧
  Preferences.migrated_memory (Preferences.to_dict p)
  = Ok (PStr (Preferences.preference_memory p)) ∧
  Forall (λ k : string, Preferences.to_dict p !! k = None)
    ("custom_preferences" :: Preferences.legacy_lists.*1).
Proof.
  split; [|split; [apply migrated_memory_to_dict|by repeat constructor]].
  unfold Preferences.from_dict. rewrite migrated_memory_to_dict.
  change (get_or "pending_updates" _ (Preferences.to_dict p))
    with (PList (PStr <$> Preferences.pending_updates p)).
  change (get_or "query_history" _ (Preferences.to_dict p))
    with (PList ((λ q, PDict (QueryRecord.to_dict q)) <$> Preferences.query_history p)).
  change (get_or "feedback_history" _ (Preferences.to_dict p))
    with (PList ((λ f, PDict (FeedbackRecord.to_dict f))
                   <$> Preferences.feedback_history p)).
  change (get "language" (Preferences.to_dict p))
    with (of_optional PStr (Preferences.language p)).
  change (get "search_mode" (Preferences.to_dict p))
    with (of_optional PStr (Preferences.search_mode p)).
  change (get "max_workers" (Preferences.to_dict p))
    with (of_optional PInt (Preferences.max_workers p)).
  change (get "save_to_local" (Preferences.to_dict p))
    with (of_optional PBool (Preferences.save_to_local p)).
  change (get "output_dir" (Preferences.to_dict p))
    with (of_optional PStr (Preferences.output_dir p)).
  change (get "save_results" (Preferences.to_dict p))
    with (of_optional PBool (Preferences.save_results p)).
  change (get "max_display" (Preferences.to_dict p))
    with (of_optional PInt (Preferences.max_display p)).
  change (get "auto_summary" (Preferences.to_dict p))
    with (of_optional PBool (Preferences.auto_summary p)).
  change (get "arxiv_categories" (Preferences.to_dict p))
    with (of_optional (λ l, PList (PStr <$> l)) (Preferences.arxiv_categories p)).
  change (get_or "last_updated" _ (Preferences.to_dict p))
    with (PStr (Preferences.last_updated p)).
  cbn [mbind res_bind as_str as_list iterate].
  rewrite mapM_as_str, mapM_query_records, mapM_feedback_records.
  cbn [mbind res_bind].
  destruct p as [pm pu qh fh la sm mw sl od sr md au ac lu]; cbn.
  destruct la, sm, mw, sl, od, sr, md, au, ac as [l|]; cbn;
    rewrite ?mapM_as_str; reflexivity.
Qed.

(** ** Migration of the legacy schema *)

Lemma mapM_strings (l : list pyval) :
  forallb is_str l = true →
  mapM (λ x, match x with PStr s => Ok s | _ => Raise TypeError end) l
  = Ok (Preferences.strings_of l).
Proof.
  induction l as [|x l IH]; [done|].
  intros [Hx Hl]%andb_true_iff. cbn [mapM]. rewrite (IH Hl).
  by destruct x.
Qed.

Lemma append_keywords_typed (k : string) (label : str)
    (data : gmap string pyval) (old_parts : list str) :
  legacy_list_typed (data !! k) = true →
  Preferences.append_keywords k label data old_parts
  = Ok (old_parts ++ option_list (Preferences.render_list data (k, label))).
Proof.
  unfold Preferences.append_keywords, Preferences.render_list, get, getitem.
  cbn [fst snd].
  destruct (data !! k) as [[| | | |l|]|];
    cbn [default truthy legacy_list_typed option_list];
    try discriminate; try (by rewrite app_nil_r).
  destruct l as [|x l]; [by rewrite app_nil_r|].
  intros Ht. unfold join_iter. cbn [iterate mbind res_bind].
  by rewrite (mapM_strings (x :: l) Ht).
Qed.

(** Claim C8: on a record without the [preference_memory] field whose legacy
    fields are as the old schema wrote them, the migration gives the
    renderings of the legacy fields that are present and not empty, in the
    order interested keywords, not-interested keywords, interested topics,
    avoided topics, custom text, joined by single spaces; a [Preferences]
    built by [from_dict] from the record has that text as its memory. *)
Theorem migration_renders_legacy_fields (data : gmap string pyval) :
  data !! "preference_memory" = None →
  legacy_typed data = true →
  Preferences.migrated_memory data
  = Ok (PStr (join " " (Preferences.legacy_renderings data))) ∧
  ∀ p, Preferences.from_dict data = Ok p →
       Preferences.preference_memory p = join " " (Preferences.legacy_renderings data).
Proof.
  intros Hm Ht.
  assert (Preferences.migrated_memory data
          = Ok (PStr (join " " (Preferences.legacy_renderings data)))) as Hrun.
  { unfold legacy_typed in Ht. cbn [forallb Preferences.legacy_lists fst] in Ht.
    apply andb_true_iff in Ht as [Ht Hc].
    apply andb_true_iff in Ht as [H1 Ht].
    apply andb_true_iff in Ht as [H2 Ht].
    apply andb_true_iff in Ht as [H3 Ht].
    apply andb_true_iff in Ht as [H4 _].
    unfold Preferences.migrated_memory, get_or. rewrite Hm. cbn [default truthy].
    rewrite (bool_decide_eq_true_2 (lit "" = [])) by done. cbn [negb].
    rewrite !append_keywords_typed by done. cbn [mbind res_bind].
    rewrite !append_keywords_typed by done. cbn [mbind res_bind].
    rewrite !append_keywords_typed by done. cbn [mbind res_bind].
    rewrite !append_keywords_typed by done. cbn [mbind res_bind].
    unfold Preferences.legacy_renderings, Preferences.render_custom, get, getitem.
    cbn [omap list_omap Preferences.legacy_lists app].
    destruct (data !! "custom_preferences") as [[| | |[|c s]| |]|];
      cbn; try done;
      destruct (Preferences.render_list data _),
               (Preferences.render_list data _),
               (Preferences.render_list data _),
               (Preferences.render_list data _); reflexivity. }
  split; [exact Hrun|].
  intros p. unfold Preferences.from_dict. rewrite Hrun. cbn [mbind res_bind as_str].
  repeat match goal with
         | |- mbind _ ?m = _ → _ =>
             destruct m; cbn [mbind res_bind]; [|discriminate]
         end.
  by intros [= <-].
Qed.

Lemma migration_renders_legacy_fields_witness :
  let data : gmap string pyval :=
    <["interested_keywords" := PList [PStr (lit "RL"); PStr (lit "LLM")]]> $
    <["not_interested_keywords" := PList []]> $
    <["not_interested_topics" := PList [PStr (lit "biology")]]> $
    <["custom_preferences" := PStr (lit "theory papers")]> ∅ in
  let text := lit "Interested in: RL, LLM Topics to avoid: biology theory papers" in
  Preferences.migrated_memory data = Ok (PStr text) ∧
  ∃ p, Preferences.from_dict data = Ok p ∧ Preferences.preference_memory p = text.
Proof.
  intros data text.
  destruct (migration_renders_legacy_fields data eq_refl eq_refl) as [Hrun Hp].
  split; [exact Hrun|].
  eexists. split; [reflexivity|].
  exact (Hp _ eq_refl).
Defined.

(** ** More on strings *)

Lemma rstrip_cons_nonspace (c : char) (s : str) :
  isspace c = false → rstrip (c :: s) = c :: rstrip s.
Proof. intros H. cbn [rstrip]. rewrite H. by destruct (rstrip s). Qed.

Lemma rstrip_app_nonblank (a b : str) :
  rstrip b ≠ [] → rstrip (a ++ b) = a ++ rstrip b.
Proof.
  intros Hb. induction a as [|c a IH]; [done|].
  cbn [app rstrip]. rewrite IH. by destruct (a ++ rstrip b) eqn:E; [destruct a|].
Qed.

Lemma rstrip_app_blank (a b : str) :
  forallb isspace b = true → rstrip (a ++ b) = rstrip a.
Proof.
  intros Hb. induction a as [|c a IH].
  - cbn [app]. by apply rstrip_nil_iff.
  - cbn [app rstrip]. by rewrite IH.
Qed.

Lemma lstrip_app_blank (a b : str) :
  forallb isspace a = true → lstrip (a ++ b) = lstrip b.
Proof.
  induction a as [|c a IH]; [done|].
  cbn [forallb app lstrip]. intros [-> H]%andb_true_iff. by apply IH.
Qed.

Lemma lstrip_idem (s : str) : lstrip (lstrip s) = lstrip s.
Proof.
  induction s as [|c s IH]; [done|]. cbn [lstrip].
  destruct (isspace c) eqn:E; [done|]. cbn [lstrip]. by rewrite E.
Qed.

Lemma rstrip_idem (s : str) : rstrip (rstrip s) = rstrip s.
Proof.
  induction s as [|c s IH]; [done|]. cbn [rstrip].
  destruct (rstrip s) as [|r rs] eqn:E.
  - destruct (isspace c) eqn:Ec; [done|]. cbn [rstrip]. by rewrite Ec.
  - cbn [rstrip] in *. rewrite IH. done.
Qed.

Lemma lstrip_rstrip (s : str) : lstrip (rstrip s) = rstrip (lstrip s).
Proof.
  induction s as [|c s IH]; [done|].
  cbn [lstrip]. destruct (isspace c) eqn:Ec.
  - rewrite <- IH. cbn [rstrip].
    destruct (rstrip s) as [|r rs] eqn:E; [by rewrite Ec|].
    cbn [lstrip]. by rewrite Ec.
  - rewrite (rstrip_cons_nonspace c s Ec). cbn [lstrip]. by rewrite Ec.
Qed.

Lemma strip_idem (s : str) : strip (strip s) = strip s.
Proof.
  unfold strip. by rewrite lstrip_rstrip, lstrip_idem, rstrip_idem.
Qed.

Lemma strip_cons_nonspace (c : char) (s : str) :
  isspace c = false → strip (c :: s) = c :: rstrip s.
Proof.
  intros H. unfold strip. cbn [lstrip]. rewrite H.
  by apply rstrip_cons_nonspace.
Qed.

Lemma strip_nonblank_cons (c : char) (s : str) :
  isspace c = false → forallb isspace (c :: s) = false.
Proof. intros H. cbn. by rewrite H. Qed.

(** ** Saving and loading *)

Lemma save_preferences_run (w : World) :
  let fault := default false (head (write_faults w)) in
  let p := set_last_updated (default [] (head (clock w))) (preferences w) in
  save_preferences w
  = (if fault then Raise OSError else Ok (),
     mkWorld p (if fault then file w else Some (Preferences.to_dict p))
       (tail (write_faults w)) (tail (clock w)) (api_key w) (replies w)
       (chat_log w) (threads w) (notifications w)).
Proof. reflexivity. Qed.

Lemma from_dict_of_to_dict (p : Preferences.t) :
  Preferences.from_dict (Preferences.to_dict p) = Ok p.
Proof.
  unfold Preferences.from_dict. rewrite migrated_memory_to_dict.
  change (get_or "pending_updates" _ (Preferences.to_dict p))
    with (PList (PStr <$> Preferences.pending_updates p)).
  change (get_or "query_history" _ (Preferences.to_dict p))
    with (PList ((λ q, PDict (QueryRecord.to_dict q)) <$> Preferences.query_history p)).
  change (get_or "feedback_history" _ (Preferences.to_dict p))
    with (PList ((λ f, PDict (FeedbackRecord.to_dict f))
                   <$> Preferences.feedback_history p)).
  change (get "language" (Preferences.to_dict p))
    with (of_optional PStr (Preferences.language p)).
  change (get "search_mode" (Preferences.to_dict p))
    with (of_optional PStr (Preferences.search_mode p)).
  change (get "max_workers" (Preferences.to_dict p))
    with (of_optional PInt (Preferences.max_workers p)).
  change (get "save_to_local" (Preferences.to_dict p))
    with (of_optional PBool (Preferences.save_to_local p)).
  change (get "output_dir" (Preferences.to_dict p))
    with (of_optional PStr (Preferences.output_dir p)).
  change (get "save_results" (Preferences.to_dict p))
    with (of_optional PBool (Preferences.save_results p)).
  change (get "max_display" (Preferences.to_dict p))
    with (of_optional PInt (Preferences.max_display p)).
  change (get "auto_summary" (Preferences.to_dict p))
    with (of_optional PBool (Preferences.auto_summary p)).
  change (get "arxiv_categories" (Preferences.to_dict p))
    with (of_optional (λ l, PList (PStr <$> l)) (Preferences.arxiv_categories p)).
  change (get_or "last_updated" _ (Preferences.to_dict p))
    with (PStr (Preferences.last_updated p)).
  cbn [mbind res_bind as_str as_list iterate].
  rewrite mapM_as_str, mapM_query_records, mapM_feedback_records.
  cbn [mbind res_bind].
  destruct p as [pm pu qh fh la sm mw sl od sr md au ac lu]; cbn.
  destruct la, sm, mw, sl, od, sr, md, au, ac as [l|]; cbn;
    rewrite ?mapM_as_str; reflexivity.
Qed.

Lemma load_stored (w : World) (p : Preferences.t) :
  file w = Some (Preferences.to_dict p) → _load_preferences w = (Ok p, w).
Proof.
  intros H.
  unfold _load_preferences, mbind, M_bind, gets, try_except_of, lift_res.
  by rewrite H, from_dict_of_to_dict.
Qed.

Lemma with_preferences_id (w : World) : with_preferences (λ _, preferences w) w = w.
Proof. by destruct w. Qed.

(** X1: what [save_preferences] wrote, [_load_preferences] reads back: after
    a save whose write did not fail, loading the file gives the preferences
    held in memory, so a manager constructed then holds the same ones. *)
Theorem saved_preferences_load_back (w : World) :
  default false (head (write_faults w)) = false →
  let w' := (save_preferences w).2 in
  (save_preferences w).1 = Ok () ∧
  file w' = Some (Preferences.to_dict (preferences w')) ∧
  _load_preferences w' = (Ok (preferences w'), w') ∧
  __init__ w' = (Ok (), w').
Proof.
  intros Hf w'. subst w'. rewrite save_preferences_run. cbv zeta.
  rewrite Hf. cbn [fst snd file preferences].
  split; [done|]. split; [done|].
  match goal with |- context [_load_preferences ?w0] => set (w1 := w0) end.
  assert (_load_preferences w1 = (Ok (preferences w1), w1)) as Hl
    by by apply load_stored.
  split; [exact Hl|].
  unfold __init__, mbind, M_bind, modify. rewrite Hl.
  by rewrite with_preferences_id.
Qed.

Lemma saved_preferences_load_back_witness :
  let w := store_with (lit "likes RL") [lit "a"] [] in
  (save_preferences w).1 = Ok () ∧
  _load_preferences (save_preferences w).2
  = (Ok (preferences (save_preferences w).2), (save_preferences w).2).
Proof.
  intros w.
  destruct (saved_preferences_load_back w eq_refl) as (H1 & _ & H3 & _).
  split; [exact H1|exact H3].
Defined.

(** X2: [from_dict] undoes [to_dict] on both history records, and so does
    the list comprehension of [Preferences.from_dict] on a saved history. *)
Theorem history_records_round_trip :
  (∀ q, QueryRecord.from_dict (PDict (QueryRecord.to_dict q)) = Ok q) ∧
  (∀ f, FeedbackRecord.from_dict (PDict (FeedbackRecord.to_dict f)) = Ok f) ∧
  (∀ l, mapM QueryRecord.from_dict ((λ q, PDict (QueryRecord.to_dict q)) <$> l) = Ok l) ∧
  (∀ l, mapM FeedbackRecord.from_dict ((λ f, PDict (FeedbackRecord.to_dict f)) <$> l)
        = Ok l).
Proof.
  split; [by intros []|]. split; [by intros []|].
  split; [apply mapM_query_records|apply mapM_feedback_records].
Qed.

Lemma type_errors_only_bind {A B} (m : res A) (f : A → res B) :
  type_errors_only m → (∀ a, type_errors_only (f a)) → type_errors_only (m ≫= f).
Proof.
  intros Hm Hf e. destruct m as [a|e']; cbn.
  - apply Hf.
  - intros [= ->]. by apply Hm.
Qed.

Lemma type_errors_only_ok {A} (a : A) : type_errors_only (Ok a).
Proof. by intros e. Qed.

Lemma type_errors_only_mapM {A} (f : pyval → res A) (l : list pyval) :
  (∀ x, type_errors_only (f x)) → type_errors_only (mapM f l).
Proof.
  intros Hf. induction l as [|x l IH]; [apply type_errors_only_ok|].
  cbn [mapM]. apply type_errors_only_bind; [apply Hf|]. intros a.
  apply type_errors_only_bind; [apply IH|]. intros k. apply type_errors_only_ok.
Qed.

Lemma type_errors_only_cast {A} (f : pyval → res A) :
  (∀ v, type_errors_only (f v)) →
  (∀ v, type_errors_only (as_optional f v)) ∧ (∀ v, type_errors_only (as_list f v)).
Proof.
  intros Hf. split; intros v.
  - destruct v; try apply type_errors_only_ok; cbn;
      (intros e; destruct (f _) as [a|e'] eqn:E; cbn; [done|];
       intros [= ->]; by eapply Hf).
  - destruct v; try (intros e [= <-]; by right).
    by apply type_errors_only_mapM.
Qed.

Lemma type_errors_only_atoms :
  (∀ v, type_errors_only (as_str v)) ∧
  (∀ v, type_errors_only (as_int v)) ∧
  (∀ v, type_errors_only (as_bool v)) ∧
  (∀ v, type_errors_only (iterate v)).
Proof.
  repeat split; intros v; destruct v; try apply type_errors_only_ok;
    try (intros e [= <-]; auto).
  cbn. destruct (map_to_list d); [apply type_errors_only_ok|].
  intros e [= <-]. auto.
Qed.

Lemma type_errors_only_record :
  (∀ v, type_errors_only (QueryRecord.from_dict v)) ∧
  (∀ v, type_errors_only (FeedbackRecord.from_dict v)).
Proof.
  destruct type_errors_only_atoms as (Hs & Hi & _ & _).
  split; intros v; destruct v; try (intros e [= <-]; auto); cbn;
    (case_bool_decide; [|intros e [= <-]; auto]);
    repeat (apply type_errors_only_bind; [done|intros ?]);
    apply type_errors_only_ok.
Qed.

Lemma type_errors_only_append_keywords (k : string) (label : str)
    (data : gmap string pyval) (old_parts : list str) :
  type_errors_only (Preferences.append_keywords k label data old_parts).
Proof.
  unfold Preferences.append_keywords, get, getitem.
  destruct (data !! k) as [v|]; cbv [default id]; [|apply type_errors_only_ok].
  destruct (truthy v); [|apply type_errors_only_ok].
  cbn [mbind res_bind]. apply type_errors_only_bind; [|intros ?; apply type_errors_only_ok].
  unfold join_iter. apply type_errors_only_bind; [apply type_errors_only_atoms|].
  intros items. apply type_errors_only_bind; [|intros ?; apply type_errors_only_ok].
  apply type_errors_only_mapM. intros x.
  destruct x; try apply type_errors_only_ok; intros e [= <-]; auto.
Qed.

Lemma type_errors_only_migrated_memory (data : gmap string pyval) :
  type_errors_only (Preferences.migrated_memory data).
Proof.
  unfold Preferences.migrated_memory.
  destruct (negb _); [|apply type_errors_only_ok].
  repeat (apply type_errors_only_bind;
          [apply type_errors_only_append_keywords|intros ?]).
  apply type_errors_only_bind; [|intros ?; apply type_errors_only_ok].
  unfold get, getitem.
  destruct (data !! "custom_preferences") as [v|]; cbv [default id];
    [|apply type_errors_only_ok].
  destruct (truthy v); [|apply type_errors_only_ok]. cbn [mbind res_bind].
  destruct v; try apply type_errors_only_ok; intros e [= <-]; auto.
Qed.

Lemma from_dict_type_errors_only (data : gmap string pyval) :
  type_errors_only (Preferences.from_dict data).
Proof.
  destruct type_errors_only_atoms as (Hs & Hi & Hb & Hit).
  destruct type_errors_only_record as (Hq & Hf).
  pose proof (type_errors_only_cast as_str Hs) as [Hos Hls].
  pose proof (type_errors_only_cast as_int Hi) as [Hoi _].
  pose proof (type_errors_only_cast as_bool Hb) as [Hob _].
  pose proof (type_errors_only_cast (as_list as_str) Hls) as [Hols _].
  unfold Preferences.from_dict.
  apply type_errors_only_bind; [apply type_errors_only_migrated_memory|intros ?].
  apply type_errors_only_bind; [done|intros ?].
  apply type_errors_only_bind; [done|intros ?].
  apply type_errors_only_bind.
  { apply type_errors_only_bind; [done|intros ?].
    by apply type_errors_only_mapM. }
  intros ?. apply type_errors_only_bind.
  { apply type_errors_only_bind; [done|intros ?].
    by apply type_errors_only_mapM. }
  intros ?.
  repeat (apply type_errors_only_bind; [done|intros ?]).
  apply type_errors_only_ok.
Qed.

Lemma load_present (data : gmap string pyval) (w : World) :
  file w = Some data → _load_preferences w = (Preferences.from_dict data, w).
Proof.
  intros Hfile.
  unfold _load_preferences, mbind, M_bind, gets, try_except_of, lift_res.
  rewrite Hfile.
  destruct (Preferences.from_dict data) as [p|e] eqn:E; [done|].
  destruct (from_dict_type_errors_only data e E) as [->| ->]; reflexivity.
Qed.

(** X3: [Preferences.from_dict] raises nothing but a TypeError (or meets
    data outside the declared field types), whatever the record: it never
    raises the KeyError that [_load_preferences] is prepared to catch.  With
    a file present, loading therefore returns what [from_dict] returns or
    raises what it raises, and never falls back to the defaults. *)
Theorem load_never_falls_back (data : gmap string pyval) (w : World) :
  type_errors_only (Preferences.from_dict data) ∧
  (file w = Some data →
   _load_preferences w = (Preferences.from_dict data, w)).
Proof.
  split; [apply from_dict_type_errors_only|apply load_present].
Qed.

Lemma load_never_falls_back_witness :
  let data : gmap string pyval := <["query_history" := PInt 3]> ∅ in
  let w := mkWorld Preferences.empty (Some data) [] [] true [] [] [] [] in
  _load_preferences w = (Raise TypeError, w).
Proof.
  intros data w.
  exact (proj2 (load_never_falls_back data w) eq_refl).
Defined.

(** X4: one history entry with a key missing or a key too many makes
    loading raise.  On a file as [save_preferences] writes it, but for a
    first entry of [query_history] whose keys are not exactly the four
    fields of [QueryRecord], [from_dict] raises TypeError, [_load_preferences]
    does not catch it and the constructor of the manager raises it. *)
Theorem load_raises_on_malformed_history
    (p : Preferences.t) (d : gmap string pyval) (l : list pyval) (w : World) :
  dom d ≠ QueryRecord.fields →
  file w = Some (<["query_history" := PList (PDict d :: l)]> (Preferences.to_dict p)) →
  _load_preferences w = (Raise TypeError, w) ∧
  __init__ w = (Raise TypeError, w).
Proof.
  intros Hd Hfile.
  set (data := <["query_history" := _]> _) in Hfile.
  assert (Preferences.from_dict data = Raise TypeError) as Hr.
  { unfold Preferences.from_dict.
    replace (Preferences.migrated_memory data)
      with (Preferences.migrated_memory (Preferences.to_dict p)).
    2:{ unfold Preferences.migrated_memory.
        change (get_or "preference_memory" _ data)
          with (PStr (Preferences.preference_memory p)).
        change (get_or "preference_memory" _ (Preferences.to_dict p))
          with (PStr (Preferences.preference_memory p)).
        by destruct (negb _). }
    rewrite migrated_memory_to_dict.
    change (get_or "pending_updates" _ data)
      with (PList (PStr <$> Preferences.pending_updates p)).
    change (get_or "query_history" _ data) with (PList (PDict d :: l)).
    cbn [mbind res_bind as_str as_list iterate]. rewrite mapM_as_str.
    cbn [mbind res_bind mapM QueryRecord.from_dict].
    by rewrite bool_decide_eq_false_2. }
  assert (_load_preferences w = (Raise TypeError, w)) as Hl.
  { rewrite (load_present data w Hfile). by rewrite Hr. }
  split; [exact Hl|].
  unfold __init__, mbind, M_bind. by rewrite Hl.
Qed.

Lemma load_raises_on_malformed_history_witness :
  let d : gmap string pyval := <["topic" := PStr (lit "RL")]> ∅ in
  let w := mkWorld Preferences.empty
             (Some (<["query_history" := PList [PDict d]]>
                      (Preferences.to_dict Preferences.empty)))
             [] [] true [] [] [] [] in
  _load_preferences w = (Raise TypeError, w) ∧ __init__ w = (Raise TypeError, w).
Proof.
  intros d w.
  apply (load_raises_on_malformed_history Preferences.empty d [] w).
  - apply (bool_decide_eq_false_1 (dom d = QueryRecord.fields)). reflexivity.
  - reflexivity.
Defined.

(** ** The histories *)

Lemma last_n_length {A} (n : nat) (l : list A) :
  length (last_n n l) = min (length l) n.
Proof. unfold last_n. rewrite length_drop. lia. Qed.

Lemma last_n_short {A} (n : nat) (l : list A) : length l ≤ n → last_n n l = l.
Proof. intros H. unfold last_n. by replace (length l - n) with 0 by lia. Qed.

Lemma last_n_snoc {A} (n : nat) (l : list A) (x : A) :
  0 < n → last (last_n n (l ++ [x])) = Some x.
Proof.
  intros Hn. unfold last_n. rewrite length_app. cbn [length].
  rewrite drop_app_le by lia. by rewrite last_snoc.
Qed.

Lemma add_query_record_run (topic time_range : str) (results_count : Z)
    (save : bool) (w : World) :
  let record :=
    QueryRecord.mk (default [] (head (clock w))) topic time_range results_count in
  Preferences.query_history (preferences (add_query_record topic time_range results_count save w).2)
  = last_n 50 (Preferences.query_history (preferences w) ++ [record]) ∧
  Preferences.feedback_history (preferences (add_query_record topic time_range results_count save w).2)
  = Preferences.feedback_history (preferences w) ∧
  memory_text (add_query_record topic time_range results_count save w).2 = memory_text w ∧
  pending (add_query_record topic time_range results_count save w).2 = pending w.
Proof.
  intros record.
  unfold add_query_record, mbind, M_bind, now_isoformat, modify, gets, mret, M_ret.
  cbn [preferences with_preferences put_query_history Preferences.query_history].
  fold record.
  set (h := Preferences.query_history (preferences w) ++ [record]).
  case_bool_decide as Hlen.
  - destruct save; [rewrite save_preferences_run|]; done.
  - change (¬ 50 < length h) in Hlen. rewrite (last_n_short 50 h) by lia.
    destruct save; [rewrite save_preferences_run|]; done.
Qed.

Lemma add_feedback_run (paper_id paper_title feedback_type feedback_reason : str)
    (save : bool) (w : World) :
  let record :=
    FeedbackRecord.mk (default [] (head (clock w))) paper_id paper_title
      feedback_type feedback_reason in
  let w' := (add_feedback paper_id paper_title feedback_type feedback_reason save w).2 in
  Preferences.feedback_history (preferences w')
  = last_n 100 (Preferences.feedback_history (preferences w) ++ [record]) ∧
  Preferences.query_history (preferences w') = Preferences.query_history (preferences w) ∧
  memory_text w' = memory_text w ∧
  pending w' = pending w.
Proof.
  intros record w'. subst w'.
  unfold add_feedback, mbind, M_bind, now_isoformat, modify, gets, mret, M_ret.
  cbn [preferences with_preferences put_feedback_history Preferences.feedback_history].
  fold record.
  set (h := Preferences.feedback_history (preferences w) ++ [record]).
  case_bool_decide as Hlen.
  - destruct save; [rewrite save_preferences_run|]; done.
  - change (¬ 100 < length h) in Hlen. rewrite (last_n_short 100 h) by lia.
    destruct save; [rewrite save_preferences_run|]; done.
Qed.

(** X5: [add_query_record] keeps the newest 50 queries.  Whatever the
    history held, afterwards it is the last 50 entries of the old history
    followed by the new record: at most 50 entries, the new record last, the
    oldest dropped first.  The record carries the time of the call. *)
Theorem add_query_record_keeps_newest_50
    (topic time_range : str) (results_count : Z) (save : bool) (w : World) :
  let old := Preferences.query_history (preferences w) in
  let new := Preferences.query_history
               (preferences (add_query_record topic time_range results_count save w).2) in
  let record :=
    QueryRecord.mk (default [] (head (clock w))) topic time_range results_count in
  length new = min (S (length old)) 50 ∧
  last new = Some record ∧
  new `suffix_of` old ++ [record].
Proof.
  intros old new record.
  destruct (add_query_record_run topic time_range results_count save w) as [H _].
  subst new. rewrite H. fold old record.
  split; [|split].
  - rewrite last_n_length, length_app. cbn [length]. lia.
  - apply last_n_snoc. lia.
  - apply suffix_drop.
Qed.

(** X6: [add_feedback] keeps the newest 100 feedback records in the same
    way, and leaves the query history, the memory text and the pending
    updates alone. *)
Theorem add_feedback_keeps_newest_100
    (paper_id paper_title feedback_type feedback_reason : str) (save : bool) (w : World) :
  let old := Preferences.feedback_history (preferences w) in
  let w' := (add_feedback paper_id paper_title feedback_type feedback_reason save w).2 in
  let new := Preferences.feedback_history (preferences w') in
  let record :=
    FeedbackRecord.mk (default [] (head (clock w))) paper_id paper_title
      feedback_type feedback_reason in
  length new = min (S (length old)) 100 ∧
  last new = Some record ∧
  new `suffix_of` old ++ [record] ∧
  Preferences.query_history (preferences w') = Preferences.query_history (preferences w) ∧
  memory_text w' = memory_text w ∧
  pending w' = pending w.
Proof.
  intros old w' new record.
  destruct (add_feedback_run paper_id paper_title feedback_type feedback_reason save w)
    as (H & Hq & Hm & Hp).
  subst new w'. rewrite H. fold old record.
  split; [|split; [|split]].
  - rewrite last_n_length, length_app. cbn [length]. lia.
  - apply last_n_snoc. lia.
  - apply suffix_drop.
  - done.
Qed.

(** ** Reading the memory *)

(** X7: the memory panel of the CLI is shown exactly when the memory text is
    not empty.  [get_preference_context] is empty for an empty memory and
    starts with its heading otherwise, so the [strip()] of the CLI's test
    never hides a stored text, not even one of whitespace only; and
    [get_preference_summary] is never empty. *)
Theorem memory_panel_shown_iff_memory (w : World) :
  memory_panel_shown w = (Ok (negb (bool_decide (memory_text w = []))), w) ∧
  ((get_preference_context w).1 = Ok [] ↔ memory_text w = []) ∧
  (get_preference_summary w).1 ≠ Ok [].
Proof.
  unfold memory_panel_shown, get_preference_context, get_preference_summary,
    mbind, M_bind, gets, mret, M_ret.
  fold (memory_text w).
  destruct (memory_text w) as [|c m] eqn:E.
  - rewrite (bool_decide_eq_true_2 (@nil char = [])) by done. cbn [negb fst].
    split; [done|]. split; [done|]. discriminate.
  - rewrite (bool_decide_eq_false_2 (c :: m = [])) by done. cbn [negb fst].
    split; [|split; [split; discriminate|discriminate]].
    f_equal. f_equal.
    assert (strip ("User Preferences:" +++ nl +++ c :: m) ≠ []) as Hs.
    { apply strip_nil_false.
      change ("User Preferences:" +++ nl +++ c :: m)
        with (85%N :: (lit "ser Preferences:" +++ nl +++ c :: m)).
      by apply strip_nonblank_cons. }
    assert ("User Preferences:" +++ nl +++ c :: m ≠ []) as Hc by done.
    by rewrite !bool_decide_eq_false_2.
Qed.

(** ** Clearing *)

(** X8: after [clear_memory] the memory text and the queue are empty, the
    histories and the language are as before, nothing was sent to the model,
    and a merge run next finds nothing to do: the pending fragments are
    dropped, not merged. *)
Theorem clear_memory_drops_pending (save : bool) (w : World) :
  let w' := (clear_memory save w).2 in
  memory_text w' = [] ∧
  pending w' = [] ∧
  Preferences.query_history (preferences w') = Preferences.query_history (preferences w) ∧
  Preferences.feedback_history (preferences w')
  = Preferences.feedback_history (preferences w) ∧
  Preferences.language (preferences w') = Preferences.language (preferences w) ∧
  chat_log w' = chat_log w ∧
  _process_memory_update w' = (Ok NoUpdates, w').
Proof.
  intros w'.
  assert (memory_text w' = [] ∧ pending w' = [] ∧
          Preferences.query_history (preferences w')
          = Preferences.query_history (preferences w) ∧
          Preferences.feedback_history (preferences w')
          = Preferences.feedback_history (preferences w) ∧
          Preferences.language (preferences w') = Preferences.language (preferences w) ∧
          chat_log w' = chat_log w) as H.
  { subst w'. unfold clear_memory, mbind, M_bind, modify.
    destruct save; [rewrite save_preferences_run|]; done. }
  destruct H as (Hm & Hp & Hq & Hf & Hl & Hc).
  repeat (split; [done|]). by apply process_no_updates.
Qed.

(** X9: [clear_all] with [save=True], when the write does not fail, leaves
    the defaults of [Preferences()] stamped with the time of the call, in
    memory and in the file alike; loading the file gives them back. *)
Theorem clear_all_resets_and_persists (w : World) :
  default false (head (write_faults w)) = false →
  let w' := (clear_all true w).2 in
  (clear_all true w).1 = Ok () ∧
  preferences w' = set_last_updated (default [] (head (clock w))) Preferences.empty ∧
  file w' = Some (Preferences.to_dict (preferences w')) ∧
  _load_preferences w' = (Ok (preferences w'), w').
Proof.
  intros Hf w'. subst w'.
  unfold clear_all, mbind, M_bind, modify. rewrite save_preferences_run.
  cbv zeta. cbn [write_faults with_preferences]. rewrite Hf. cbn [fst snd].
  split; [done|]. split; [done|]. split; [done|].
  by apply load_stored.
Qed.

Lemma clear_all_resets_and_persists_witness :
  let w := store_with (lit "likes RL") [lit "a"] [] in
  (clear_all true w).1 = Ok () ∧
  preferences (clear_all true w).2 = Preferences.empty.
Proof.
  intros w.
  destruct (clear_all_resets_and_persists w eq_refl) as (H1 & H2 & _).
  split; [exact H1|exact H2].
Defined.

(** ** More on the merge *)

Arguments commit : simpl never.

Lemma process_ok_run (w : World) (response : str) :
  pending w ≠ [] →
  reply (next_step (replies w)) = Ok response →
  let request := merge_call (lang_or_en w) (memory_text w) (pending w) in
  let w1 := (chat (messages request) (temperature request)
               (with_preferences (set_pending_updates []) w)).2 in
  let request2 := compress_call (lang_or_en w) (strip response) in
  _process_memory_update w
  = if bool_decide (MAX_MEMORY_LENGTH < len (strip response)) then
      let result :=
        compressed_from (strip response) (reply (next_step (tail (replies w)))) in
      commit (pending w) (CompressResult.memory result)
        (Some (CompressResult.notification result))
        (chat (messages request2) (temperature request2) w1).2
    else commit (pending w) (strip response) None w1.
Proof.
  intros Hp Hr request w1 request2. run_merge w Hp. fold request.
  set (w0 := with_preferences _ w) in *.
  destruct (chat_run (messages request) (temperature request) w0)
    as (H1 & H2 & H3 & H4 & H5 & H6 & H7 & H8 & H9).
  subst w1.
  destruct (chat _ _ w0) as [r w1] eqn:E. cbn [fst snd] in *.
  change (replies w0) with (replies w) in *. rewrite Hr in H1. subst r.
  case_bool_decide as Hlen; [|reflexivity].
  rewrite compress_memory_run. cbv zeta.
  assert (lang_or_en w1 = lang_or_en w) as ->.
  { unfold lang_or_en. by rewrite H3. }
  fold request2. rewrite H6.
  by destruct (chat _ _ w1) as [r2 w2].
Qed.

Lemma commit_run_fault (drained : list str) (new_memory : str) (n : option str)
    (w : World) :
  let w1 := (save_preferences (with_preferences (set_preference_memory new_memory) w)).2 in
  commit drained new_memory n w
  = if default false (head (write_faults w))
    then (Ok (Error (exn_msg OSError)),
          with_preferences (λ p,
            set_pending_updates (drained ++ Preferences.pending_updates p) p) w1)
    else (Ok (Success n), w1).
Proof.
  unfold commit, try_except, mbind, M_bind, modify, mret, M_ret.
  rewrite save_preferences_run. cbv zeta. cbn [write_faults with_preferences snd].
  by destruct (default false (head (write_faults w))).
Qed.

Lemma commit_success (drained : list str) (new_memory : str) (n n' : option str)
    (w w' : World) :
  commit drained new_memory n w = (Ok (Success n'), w') →
  n' = n ∧
  default false (head (write_faults w)) = false ∧
  memory_text w' = new_memory ∧
  pending w' = pending w ∧
  file w' = Some (Preferences.to_dict (preferences w')).
Proof.
  rewrite commit_run_fault. cbv zeta. rewrite save_preferences_run. cbv zeta.
  cbn [write_faults with_preferences snd].
  destruct (default false (head (write_faults w))); [discriminate|].
  by intros [= <- <-].
Qed.

(** X10: a merge that reports success has saved what it committed: the file
    holds the preferences as they are in memory, the committed text
    included, and loading the file gives them back. *)
Theorem successful_merge_is_persisted (w w' : World) (n : option str) :
  _process_memory_update w = (Ok (Success n), w') →
  file w' = Some (Preferences.to_dict (preferences w')) ∧
  _load_preferences w' = (Ok (preferences w'), w').
Proof.
  intros Hrun.
  assert (file w' = Some (Preferences.to_dict (preferences w'))) as Hfile.
  { destruct (decide (pending w = [])) as [Hp|Hp].
    { by rewrite (process_no_updates w Hp) in Hrun. }
    destruct (reply (next_step (replies w))) as [response|e] eqn:Hr.
    - rewrite (process_ok_run w response Hp Hr) in Hrun. cbv zeta in Hrun.
      case_bool_decide; by apply commit_success in Hrun as (_ & _ & _ & _ & ?).
    - destruct (process_fail w e Hp Hr) as (w2 & Hrun2 & _).
      by rewrite Hrun2 in Hrun. }
  split; [exact Hfile|]. by apply load_stored.
Qed.

Lemma successful_merge_is_persisted_witness :
  let w := store_with [] [lit "likes RL"] [mkStep [] (Ok (lit "The user likes RL."))] in
  let w' := (_process_memory_update w).2 in
  file w' = Some (Preferences.to_dict (preferences w')) ∧
  _load_preferences w' = (Ok (preferences w'), w').
Proof.
  intros w w'.
  apply (successful_merge_is_persisted w w' None). reflexivity.
Defined.

(** X11: a merge that reports success has consumed exactly the fragments it
    drained: the queue then holds the fragments enqueued while its requests
    were in flight, in the order they came, and nothing else. *)
Theorem successful_merge_leaves_later_fragments
    (w w' : World) (response : str) (n : option str) :
  reply (next_step (replies w)) = Ok response →
  _process_memory_update w = (Ok (Success n), w') →
  pending w'
  = enqueued (meanwhile (next_step (replies w))) ++
    (if bool_decide (MAX_MEMORY_LENGTH < len (strip response))
     then enqueued (meanwhile (next_step (tail (replies w)))) else []).
Proof.
  intros Hr Hrun.
  destruct (decide (pending w = [])) as [Hp|Hp].
  { by rewrite (process_no_updates w Hp) in Hrun. }
  rewrite (process_ok_run w response Hp Hr) in Hrun. cbv zeta in Hrun.
  set (request := merge_call _ _ _) in Hrun.
  set (w0 := with_preferences _ w) in Hrun.
  destruct (chat_run (messages request) (temperature request) w0)
    as (_ & _ & _ & H4 & _ & H6 & _).
  cbv zeta in H4, H6. change (pending w0) with (@nil str) in H4.
  change (replies w0) with (replies w) in H4, H6.
  case_bool_decide.
  - set (request2 := compress_call _ _) in Hrun.
    destruct (chat_run (messages request2) (temperature request2)
                (chat (messages request) (temperature request) w0).2)
      as (_ & _ & _ & G4 & _).
    cbv zeta in G4.
    apply commit_success in Hrun as (_ & _ & _ & -> & _).
    by rewrite G4, H4, H6.
  - apply commit_success in Hrun as (_ & _ & _ & -> & _).
    by rewrite H4, app_nil_r.
Qed.

Lemma successful_merge_leaves_later_fragments_witness :
  let w := store_with [] [lit "likes RL"]
             [mkStep [lit " no biology "; lit "  "] (Ok (lit "The user likes RL."))] in
  pending (_process_memory_update w).2 = [lit "no biology"].
Proof.
  intros w.
  assert (reply (next_step (replies w)) = Ok (lit "The user likes RL.")) as Hr
    by reflexivity.
  assert (_process_memory_update w
          = (Ok (Success None), (_process_memory_update w).2)) as Hrun
    by (vm_compute; reflexivity).
  rewrite (successful_merge_leaves_later_fragments w _ _ None Hr Hrun).
  vm_compute. reflexivity.
Defined.



(** X13: an answer of whitespace only erases the memory.  The merge strips
    it to the empty text, sends no compression request and commits the
    empty text, whatever the memory held. *)
Theorem blank_answer_erases_memory (w : World) (response : str) :
  pending w ≠ [] →
  reply (next_step (replies w)) = Ok response →
  forallb isspace response = true →
  let w' := (_process_memory_update w).2 in
  memory_text w' = [] ∧
  chat_log w' = chat_log w ++ [merge_call (lang_or_en w) (memory_text w) (pending w)] ∧
  ((_process_memory_update w).1 = Ok (Success None) ∨
   ∃ m, (_process_memory_update w).1 = Ok (Error m)).
Proof.
  intros Hp Hr Hb w'. subst w'.
  apply strip_nil_iff in Hb.
  destruct (process_small w response Hp Hr) as (r & w' & -> & Hres & Hm & Hlog & _).
  { rewrite Hb. unfold MAX_MEMORY_LENGTH. cbn. lia. }
  cbn [fst snd]. rewrite Hm, Hb. split; [done|]. split; [done|].
  destruct Hres as [->|[m ->]]; eauto.
Qed.

Lemma blank_answer_erases_memory_witness :
  let w := store_with (lit "The user likes RL.") [lit "no biology"]
             [mkStep [] (Ok (lit ""))] in
  memory_text (_process_memory_update w).2 = [].
Proof.
  intros w.
  refine (proj1 (blank_answer_erases_memory w (lit "") _ _ _)).
  - discriminate.
  - reflexivity.
  - reflexivity.
Defined.

Lemma merge_bound_without_model_compression_witness :
  let w := store_with [] [lit "likes RL"]
             [mkStep [] (Ok (repeat 97%N 2001)); mkStep [] (Raise ConnectionError)] in
  len (memory_text (_process_memory_update w).2) ≤ MAX_MEMORY_LENGTH.
Proof.
  intros w.
  apply (merge_bound_without_model_compression w (repeat 97%N 2001)).
  - discriminate.
  - reflexivity.
  - right. exists ConnectionError. reflexivity.
Defined.

(** ** Threads and callers *)

Lemma run_cases (w : World) :
  _run w = (Ok (), if api_key w then (_process_memory_update w).2 else w).
Proof.
  unfold _run, try_except, mbind, M_bind, get_llm_client, mret, M_ret.
  destruct (api_key w); [|done].
  destruct (process_cases w) as (r & w' & -> & _). done.
Qed.

(** X14: a background thread never dies of an exception, whatever the
    world it runs in.  The body of [schedule_background_optimization] runs
    one merge when the client can be built and does nothing otherwise, and
    calls nobody back. *)
Theorem background_threads_never_raise (body : Thread) (w : World) :
  (run_thread body w).1 = Ok () ∧
  (run_thread Run w).2 = (if api_key w then (_process_memory_update w).2 else w) ∧
  notifications (run_thread Run w).2 = notifications w.
Proof.
  split; [|split].
  - destruct body as [on_complete|]; cbn [run_thread].
    + apply run_update_cases.
    + by rewrite run_cases.
  - cbn [run_thread]. by rewrite run_cases.
  - cbn [run_thread]. rewrite run_cases. cbn [snd].
    destruct (api_key w); [|done].
    by destruct (process_cases w) as (r & w' & -> & Hn & _).
Qed.

Lemma add_preference_update_run (update_text : str) (w : World) :
  forallb isspace update_text = false →
  add_preference_update update_text true w
  = save_preferences
      (with_preferences (λ p,
         set_pending_updates (Preferences.pending_updates p ++ [strip update_text]) p) w).
Proof.
  intros H. unfold add_preference_update. by rewrite blank_test, H.
Qed.

Lemma chat_quiet (msgs : list (str * str)) (t : Q) (w : World) :
  meanwhile (next_step (replies w)) = [] →
  chat msgs t w
  = (reply (next_step (replies w)),
     mkWorld (preferences w) (file w) (write_faults w) (clock w) (api_key w)
       (tail (replies w)) (chat_log w ++ [mkCall msgs t]) (threads w)
       (notifications w)).
Proof. intros H. unfold chat. by rewrite H. Qed.

(** A quiet merge of a short answer on a disk that takes the write. *)
Lemma process_quiet_small (w : World) (response : str) (rest : list ChatStep) :
  pending w ≠ [] →
  replies w = mkStep [] (Ok response) :: rest →
  len (strip response) ≤ MAX_MEMORY_LENGTH →
  default false (head (write_faults w)) = false →
  ∃ w',
    _process_memory_update w = (Ok (Success None), w') ∧
    memory_text w' = strip response ∧
    pending w' = [] ∧
    chat_log w' = chat_log w ++ [merge_call (lang_or_en w) (memory_text w) (pending w)] ∧
    file w' = Some (Preferences.to_dict (preferences w')) ∧
    notifications w' = notifications w.
Proof.
  intros Hp Hrep Hlen Hf.
  assert (reply (next_step (replies w)) = Ok response) as Hr by by rewrite Hrep.
  rewrite (process_ok_run w response Hp Hr). cbv zeta.
  rewrite bool_decide_eq_false_2 by lia.
  rewrite chat_quiet by (cbn [replies with_preferences]; by rewrite Hrep).
  cbn [snd]. rewrite commit_run_fault. cbv zeta.
  cbn [write_faults with_preferences].
  rewrite Hf. eexists. split; [reflexivity|].
  rewrite save_preferences_run. cbv zeta. cbn [write_faults with_preferences].
  rewrite Hf. by destruct w as [[]].
Qed.

(** X15: a scheduled update, run to its end.  With an empty queue, a client
    that can be built, a disk that takes the writes and a model that answers
    with a text of at most 2000 characters, [schedule_memory_update] starts
    one thread, and once it has run the memory is the stripped answer, the
    queue is empty again, the one request sent carried the stripped
    fragment, the file holds the new preferences and [on_complete] was not
    called. *)
Theorem scheduled_update_reaches_memory
    (new_info response : str) (on_complete : option Callback)
    (rest : list ChatStep) (w : World) :
  forallb isspace new_info = false →
  pending w = [] →
  api_key w = true →
  write_faults w = [] →
  replies w = mkStep [] (Ok response) :: rest →
  len (strip response) ≤ MAX_MEMORY_LENGTH →
  let w1 := (schedule_memory_update new_info on_complete w).2 in
  let w2 := (run_thread (RunUpdate on_complete) w1).2 in
  threads w1 = threads w ++ [RunUpdate on_complete] ∧
  memory_text w2 = strip response ∧
  pending w2 = [] ∧
  chat_log w2 = chat_log w ++ [merge_call (lang_or_en w) (memory_text w) [strip new_info]] ∧
  file w2 = Some (Preferences.to_dict (preferences w2)) ∧
  notifications w2 = notifications w.
Proof.
  intros Hb Hp Hk Hw Hrep Hlen w1 w2.
  assert (w1 = (start_thread (RunUpdate on_complete)
                  (add_preference_update new_info true w).2).2) as Hw1.
  { subst w1. unfold schedule_memory_update.
    pose proof (strip_nil_false _ Hb) as Hs.
    assert (new_info ≠ []) as Hne by (intros ->; done).
    rewrite !bool_decide_eq_false_2 by done. cbn [orb].
    unfold mbind, M_bind. rewrite (add_preference_update_run _ _ Hb).
    rewrite save_preferences_run. cbv zeta. cbn [write_faults with_preferences].
    by rewrite Hw. }
  rewrite (add_preference_update_run _ _ Hb), save_preferences_run in Hw1.
  cbv zeta in Hw1. cbn [write_faults with_preferences snd start_thread] in Hw1.
  rewrite Hw in Hw1. cbn [head tail default] in Hw1.
  subst w2. clearbody w1. subst w1.
  split; [done|].
  match goal with
  | |- context [run_thread _ ?w0] => set (w1 := w0)
  end.
  assert (pending w1 = [strip new_info]) as Hp1.
  { unfold pending in *. cbn. by rewrite Hp. }
  destruct (process_quiet_small w1 response rest) as (w' & Hrun & Hm & Hq & Hl & Hfile & Hn);
    [by rewrite Hp1|done|done|done|].
  unfold run_thread, _run_update, try_except, mbind, M_bind, get_llm_client.
  change (api_key w1) with (api_key w). rewrite Hk, Hrun.
  destruct on_complete; cbn [get_notification snd mret M_ret];
    rewrite Hm, Hq, Hl, Hfile, Hn, Hp1; done.
Qed.

Lemma scheduled_update_reaches_memory_witness :
  let w := store_with [] [] [mkStep [] (Ok (lit "The user likes RL."))] in
  let w1 := (schedule_memory_update (lit " likes RL ") None w).2 in
  let w2 := (run_thread (RunUpdate None) w1).2 in
  threads w1 = [RunUpdate None] ∧
  memory_text w2 = lit "The user likes RL." ∧
  pending w2 = [] ∧
  chat_log w2 = [merge_call (lit "en") [] [lit "likes RL"]] ∧
  file w2 = Some (Preferences.to_dict (preferences w2)) ∧
  notifications w2 = [].
Proof.
  intros w.
  apply (scheduled_update_reaches_memory (lit " likes RL ") (lit "The user likes RL.")
           None [] w); try reflexivity.
  vm_compute. lia.
Defined.

(** ** The legacy methods and the command line *)

Lemma strip_label (c : char) (label text : str) :
  isspace c = false → forallb isspace text = false →
  strip ((c :: label) ++ text) = (c :: label) ++ rstrip text.
Proof.
  intros Hc Ht. cbn [app]. rewrite strip_cons_nonspace by done.
  rewrite rstrip_app_nonblank; [done|].
  intros E%rstrip_nil_iff. congruence.
Qed.

Lemma legacy_update_run (c : char) (label text : str) (save : bool) (w : World) :
  isspace c = false → forallb isspace text = false →
  legacy_update (c :: label) text save w
  = save_preferences
      (with_preferences (λ p,
         set_pending_updates
           (Preferences.pending_updates p ++ [(c :: label) ++ rstrip text]) p) w).
Proof.
  intros Hc Ht. unfold legacy_update. rewrite blank_test, Ht. cbn [negb].
  rewrite add_preference_update_run by by apply strip_nonblank_cons.
  unfold cat. by rewrite strip_label.
Qed.

(** X16: the legacy methods enqueue one fragment, their label followed by
    the text with its trailing whitespace removed, and always save: their
    [save] argument changes nothing, the file is written even with
    [save=False].  A blank text does nothing. *)
Theorem legacy_methods_always_save (text : str) (save : bool) (w : World) :
  (forallb isspace text = true →
   add_interested_keyword text save w = (Ok (), w) ∧
   add_not_interested_keyword text save w = (Ok (), w) ∧
   add_interested_topic text save w = (Ok (), w) ∧
   add_not_interested_topic text save w = (Ok (), w) ∧
   set_custom_preferences text save w = (Ok (), w)) ∧
  (forallb isspace text = false →
   let queued label :=
     save_preferences
       (with_preferences (λ p,
          set_pending_updates (Preferences.pending_updates p ++ [label]) p) w) in
   add_interested_keyword text save w
   = queued ("User is interested in: " +++ rstrip text) ∧
   add_not_interested_keyword text save w
   = queued ("User is NOT interested in: " +++ rstrip text) ∧
   add_interested_topic text save w
   = queued ("User is interested in topic: " +++ rstrip text) ∧
   add_not_interested_topic text save w
   = queued ("User wants to avoid topic: " +++ rstrip text) ∧
   set_custom_preferences text save w = queued (strip text)).
Proof.
  split; intros Ht.
  - unfold add_interested_keyword, add_not_interested_keyword, add_interested_topic,
      add_not_interested_topic, set_custom_preferences, legacy_update.
    by rewrite blank_test, Ht.
  - cbv zeta.
    unfold add_interested_keyword, add_not_interested_keyword, add_interested_topic,
      add_not_interested_topic, set_custom_preferences.
    repeat split;
      try (by apply (legacy_update_run 85%N _ text save w)).
    unfold legacy_update. rewrite blank_test, Ht. cbn [negb].
    by apply add_preference_update_run.
Qed.

Lemma legacy_methods_always_save_witness :
  let w := store_with [] [] [] in
  add_interested_topic (lit "  ") false w = (Ok (), w) ∧
  pending (add_interested_topic (lit " RL  ") false w).2
  = [lit "User is interested in topic:  RL"] ∧
  file (add_interested_topic (lit " RL  ") false w).2
  = Some (Preferences.to_dict (preferences (add_interested_topic (lit " RL  ") false w).2)).
Proof.
  intros w.
  destruct (legacy_methods_always_save (lit "  ") false w) as [Hblank _].
  destruct (legacy_methods_always_save (lit " RL  ") false w) as [_ Hq].
  destruct (Hblank eq_refl) as (_ & _ & H & _).
  destruct (Hq eq_refl) as (_ & _ & H' & _).
  split; [exact H|]. rewrite H'. split; reflexivity.
Defined.

(** X17: the "add" entry of the memory menu queues the preference twice.
    For a text that is not blank, on a disk that takes the two writes, the
    queue grows by "User preference: " and "User explicitly stated: ", each
    followed by the stripped text, in that order, and one thread is started
    for the merge; a blank text changes nothing. *)
Theorem memory_menu_add_queues_twice
    (new_pref : str) (on_memory_update : Callback) (w : World) :
  (forallb isspace new_pref = true →
   memory_menu_add new_pref on_memory_update w = (Ok (), w)) ∧
  (forallb isspace new_pref = false →
   default false (head (write_faults w)) = false →
   default false (head (tail (write_faults w))) = false →
   let w' := (memory_menu_add new_pref on_memory_update w).2 in
   (memory_menu_add new_pref on_memory_update w).1 = Ok () ∧
   pending w' = pending w ++ ["User preference: " +++ strip new_pref;
                              "User explicitly stated: " +++ strip new_pref] ∧
   threads w' = threads w ++ [RunUpdate (Some on_memory_update)]).
Proof.
  split.
  - intros Hb%strip_nil_iff. unfold memory_menu_add.
    by rewrite (bool_decide_eq_true_2 (strip new_pref = [])).
  - intros Hb Hf1 Hf2 w'. subst w'.
    pose proof (strip_nil_false _ Hb) as Hs.
    assert (forallb isspace (strip new_pref) = false) as Hb'.
    { destruct (forallb isspace (strip new_pref)) eqn:E; [|done].
      apply strip_nil_iff in E. by rewrite strip_idem in E. }
    assert (rstrip (strip new_pref) = strip new_pref) as Hr.
    { unfold strip. by rewrite rstrip_idem. }
    assert (∀ label : str, strip ((85%N :: label) ++ strip new_pref)
                           = (85%N :: label) ++ strip new_pref) as Hl.
    { intros label. by rewrite strip_label, Hr. }
    unfold memory_menu_add. rewrite (bool_decide_eq_false_2 (strip new_pref = [])) by done.
    cbn [negb]. unfold mbind, M_bind.
    rewrite add_preference_update_run by by apply strip_nonblank_cons.
    rewrite save_preferences_run. cbv zeta.
    cbn [write_faults with_preferences]. rewrite Hf1.
    unfold schedule_memory_update.
    rewrite (bool_decide_eq_false_2 (_ +++ _ = [])) by done.
    rewrite (bool_decide_eq_false_2 (strip _ = [])).
    2:{ apply strip_nil_false. by apply strip_nonblank_cons. }
    cbn [orb]. unfold mbind, M_bind.
    rewrite add_preference_update_run by by apply strip_nonblank_cons.
    rewrite save_preferences_run. cbv zeta.
    cbn [write_faults with_preferences]. rewrite Hf2.
    unfold cat. unfold pending.
    change (strip (lit "User preference: " ++ strip new_pref))
      with (strip ((85%N :: lit "ser preference: ") ++ strip new_pref)).
    change (strip (lit "User explicitly stated: " ++ strip new_pref))
      with (strip ((85%N :: lit "ser explicitly stated: ") ++ strip new_pref)).
    rewrite !Hl. cbn. by rewrite <- app_assoc.
Qed.

Lemma memory_menu_add_queues_twice_witness :
  let w := store_with [] [] [] in
  memory_menu_add (lit "   ") (λ _, Ok ()) w = (Ok (), w) ∧
  pending (memory_menu_add (lit " no biology ") (λ _, Ok ()) w).2
  = [lit "User preference: no biology"; lit "User explicitly stated: no biology"].
Proof.
  intros w. split.
  - exact (proj1 (memory_menu_add_queues_twice (lit "   ") (λ _, Ok ()) w) eq_refl).
  - destruct (proj2 (memory_menu_add_queues_twice (lit " no biology ") (λ _, Ok ()) w)
                eq_refl eq_refl eq_refl) as (_ & H & _).
    exact H.
Defined.

Lemma commit_run_error (drained : list str) (new_memory : str) (n : option str)
    (w w' : World) (m : str) :
  commit drained new_memory n w = (Ok (Error m), w') →
  drained `prefix_of` pending w'.
Proof.
  rewrite commit_run_fault. cbv zeta.
  destruct (default false (head (write_faults w))); [|discriminate].
  intros [= _ <-]. unfold pending. cbn. by eexists.
Qed.

Lemma process_keeps_or_succeeds (w : World) :
  ∃ r w',
    _process_memory_update w = (Ok r, w') ∧
    ((∃ n, r = Success n) ∨ pending w `prefix_of` pending w').
Proof.
  destruct (decide (pending w = [])) as [Hp|Hp].
  { rewrite (process_no_updates w Hp). eexists _, _. split; [done|].
    right. rewrite Hp. apply prefix_nil. }
  destruct (reply (next_step (replies w))) as [response|e] eqn:Hr.
  - rewrite (process_ok_run w response Hp Hr). cbv zeta.
    case_bool_decide;
      match goal with
      | |- context [commit ?d ?t ?n ?w0] =>
          pose proof (commit_run_error d t n w0) as He;
          rewrite (commit_run_fault d t n w0) in *; cbv zeta in *;
          destruct (default false (head (write_faults w0)))
      end;
      eexists _, _; (split; [reflexivity|]); eauto.
  - destruct (process_fail w e Hp Hr) as (w' & -> & Hq & _).
    eexists _, _. split; [done|]. right. rewrite Hq. by eexists.
Qed.

(** X18: a merge loses no fragment.  Whatever goes wrong (the request, the
    save), it returns a result; unless the result is success, the fragments
    that were pending are still pending, in front and in their order. *)
Theorem unsuccessful_merge_keeps_fragments (w : World) :
  ∃ r w',
    _process_memory_update w = (Ok r, w') ∧
    ((∃ n, r = Success n) ∨ pending w `prefix_of` pending w').
Proof. apply process_keeps_or_succeeds. Qed.



(** X20: the language set by [set_language] is the language of the next
    merge request; the empty language asks for English. *)
Theorem set_language_steers_next_merge (language : str) (save : bool) (w : World) :
  pending w ≠ [] →
  let w1 := (set_language language save w).2 in
  ∃ rest,
    chat_log (_process_memory_update w1).2
    = chat_log w ++
      merge_call (if bool_decide (language = []) then lit "en" else language)
        (memory_text w) (pending w) :: rest.
Proof.
  intros Hp w1.
  assert (pending w1 = pending w ∧ memory_text w1 = memory_text w ∧
          chat_log w1 = chat_log w ∧
          lang_or_en w1 = if bool_decide (language = []) then lit "en" else language)
    as (Hq & Hm & Hl & Hlang).
  { subst w1. unfold set_language, mbind, M_bind, modify.
    destruct save; [rewrite save_preferences_run|];
      (repeat split; try done); unfold lang_or_en; cbn; by destruct language. }
  destruct (process_request w1) as [rest Hreq]; [by rewrite Hq|].
  exists rest. by rewrite Hreq, Hq, Hm, Hl, Hlang.
Qed.

Lemma set_language_steers_next_merge_witness :
  let w := store_with [] [lit "likes RL"] [] in
  ∃ rest,
    chat_log (_process_memory_update (set_language (lit "zh") true w).2).2
    = merge_call (lit "zh") [] [lit "likes RL"] :: rest.
Proof.
  intros w.
  apply (set_language_steers_next_merge (lit "zh") true w). discriminate.
Defined.

(** ** The client *)

Lemma build_plain_none (sys : option str) (i : nat) (l : list (str * str)) :
  LLMClient.build sys None i l = plain_contents l.
Proof.
  revert i. induction l as [|[role content] l IH]; intros i; [done|].
  cbn [LLMClient.build plain_contents omap list_omap fst snd].
  case_bool_decide; [apply IH|].
  rewrite (bool_decide_eq_false_2 (None = Some i)) by done. cbn [andb].
  f_equal. apply IH.
Qed.

Lemma build_plain_past (sys : option str) (j i : nat) (l : list (str * str)) :
  j < i → LLMClient.build sys (Some j) i l = plain_contents l.
Proof.
  revert i. induction l as [|[role content] l IH]; intros i Hj; [done|].
  cbn [LLMClient.build plain_contents omap list_omap fst snd].
  case_bool_decide; [apply IH; lia|].
  rewrite (bool_decide_eq_false_2 (Some j = Some i)) by (intros [=]; lia).
  cbn [andb]. f_equal. apply IH. lia.
Qed.

Lemma first_user_idx_none (i : nat) (l : list (str * str)) :
  Forall (λ m, m.1 ≠ lit "user") l → LLMClient.first_user_idx i l = None.
Proof.
  intros H. revert i. induction H as [|[role content] l Hm Hl IH]; intros i; [done|].
  cbn [LLMClient.first_user_idx]. cbn [fst] in Hm.
  rewrite bool_decide_eq_false_2 by done. apply IH.
Qed.

Lemma first_user_idx_app (i : nat) (pre post : list (str * str)) (t : str) :
  Forall (λ m, m.1 ≠ lit "user") pre →
  LLMClient.first_user_idx i (pre ++ (lit "user", t) :: post) = Some (i + length pre).
Proof.
  intros H. revert i. induction H as [|[role content] l Hm Hl IH]; intros i.
  - cbn. rewrite bool_decide_eq_true_2 by done. f_equal. lia.
  - cbn [app LLMClient.first_user_idx length]. cbn [fst] in Hm.
    rewrite bool_decide_eq_false_2 by done. rewrite IH. f_equal. lia.
Qed.

Lemma build_first_user (sys : option str) (i : nat)
    (pre post : list (str * str)) (t : str) :
  Forall (λ m, m.1 ≠ lit "user") pre →
  LLMClient.build sys (Some (i + length pre)) i (pre ++ (lit "user", t) :: post)
  = plain_contents pre ++
    (lit "user",
     if LLMClient.nonempty sys then default [] sys +++ nl +++ nl +++ t else t)
    :: plain_contents post.
Proof.
  intros H. revert i. induction H as [|[role content] l Hm Hl IH]; intros i.
  - cbn [app length plain_contents omap list_omap LLMClient.build].
    rewrite (bool_decide_eq_false_2 (lit "user" = lit "system")) by done.
    rewrite (bool_decide_eq_true_2 (lit "user" = lit "user")) by done.
    replace (i + 0) with i by lia.
    rewrite (bool_decide_eq_true_2 (Some i = Some i)) by done. cbn [andb].
    f_equal. apply build_plain_past. lia.
  - cbn [app length plain_contents omap list_omap LLMClient.build fst snd].
    cbn [fst] in Hm. replace (i + S (length l)) with (S i + length l) by lia.
    case_bool_decide; [apply IH|].
    rewrite (bool_decide_eq_false_2 (role = lit "user")) by done.
    rewrite (bool_decide_eq_false_2 (Some _ = Some i)) by (intros [=]; lia).
    cbn [andb app]. f_equal. apply IH.
Qed.

(** X21: what the model receives.  When the messages hold a user message,
    the contents are the messages that are not system messages, in order,
    with every role but "user" turned into "model", and the content of the
    first system message, when it is not empty, put in front of the first
    user message with a blank line between.  Both requests of the memory
    store so reach the model as one user turn. *)
Theorem contents_with_user_message (pre post : list (str * str)) (t : str) :
  Forall (λ m, m.1 ≠ lit "user") pre →
  let messages := pre ++ (lit "user", t) :: post in
  let sys := LLMClient.system_instruction messages in
  LLMClient.contents messages
  = plain_contents pre ++
    (lit "user",
     if LLMClient.nonempty sys then default [] sys +++ nl +++ nl +++ t else t)
    :: plain_contents post.
Proof.
  intros H messages sys. unfold LLMClient.contents. fold messages. fold sys.
  subst messages. rewrite (first_user_idx_app 0 pre post t H).
  rewrite (build_first_user sys 0 pre post t H).
  rewrite bool_decide_eq_false_2; [done|]. by destruct (plain_contents pre).
Qed.

Lemma contents_with_user_message_witness :
  LLMClient.contents (messages (merge_call (lit "en") [] [lit "likes RL"]))
  = [(lit "user",
      merge_system_prompt (lit "en") +++ nl +++ nl +++
      merge_user_prompt [] (lit "likes RL"))].
Proof.
  exact (contents_with_user_message
           [(lit "system", merge_system_prompt (lit "en"))] []
           (merge_user_prompt [] (lit "likes RL"))
           ltac:(repeat constructor; discriminate)).
Defined.

(** X22: without a user message the system instruction is sent only when
    it is all there is.  The contents are then the remaining messages as
    "model" turns; if there are none and the first system message is not
    empty, that message alone is sent as a user turn; a system instruction
    beside assistant messages is dropped. *)
Theorem contents_without_user_message (messages : list (str * str)) :
  Forall (λ m, m.1 ≠ lit "user") messages →
  let sys := LLMClient.system_instruction messages in
  LLMClient.contents messages
  = if bool_decide (plain_contents messages = []) && LLMClient.nonempty sys
    then [(lit "user", default [] sys)]
    else plain_contents messages.
Proof.
  intros H sys. unfold LLMClient.contents. fold sys.
  rewrite (first_user_idx_none 0 messages H), build_plain_none.
  case_bool_decide as E; [|done]. rewrite E. by destruct (LLMClient.nonempty sys).
Qed.

Lemma contents_without_user_message_witness :
  LLMClient.contents [(lit "system", lit "be brief"); (lit "assistant", lit "hello")]
  = [(lit "model", lit "hello")].
Proof.
  exact (contents_without_user_message
           [(lit "system", lit "be brief"); (lit "assistant", lit "hello")]
           ltac:(repeat constructor; discriminate)).
Defined.




(** ** The format of a compression answer *)

Lemma startswith_app (p s : str) : startswith p (p ++ s) = true.
Proof. induction p as [|a p IH]; cbn; [done|]. by rewrite N.eqb_refl. Qed.

Lemma contains_prefix (sep s : str) : contains sep (sep ++ s) = true.
Proof.
  unfold contains. destruct (sep ++ s) eqn:E; rewrite <- E;
    by rewrite startswith_app.
Qed.

Lemma contains_cons (sep s : str) (c : char) :
  contains sep (c :: s) = startswith sep (c :: s) || contains sep s.
Proof. done. Qed.

Lemma contains_app_r (sep a b : str) :
  contains sep b = true → contains sep (a ++ b) = true.
Proof.
  intros H. induction a as [|x a IH]; [done|].
  cbn [app]. rewrite contains_cons, IH. apply orb_true_r.
Qed.

Lemma split1_prefix (sep s : str) : split1 sep (sep ++ s) = [ []; s ].
Proof.
  destruct (sep ++ s) eqn:E; cbn [split1]; rewrite <- E;
    by rewrite startswith_app, drop_app_length.
Qed.

Lemma startswith_boundary (sep a b : str) (c : char) :
  c ∉ sep → startswith sep (a ++ c :: b) = startswith sep a.
Proof.
  revert a. induction sep as [|p sep IH]; intros a Hc; [by destruct a|].
  apply not_elem_of_cons in Hc as [Hpc Hc].
  destruct a as [|x a]; cbn.
  - destruct (N.eqb_spec p c); [congruence|done].
  - by rewrite IH.
Qed.

Lemma split1_cons_other (sep s : str) (c : char) :
  startswith sep (c :: s) = false →
  split1 sep (c :: s)
  = match split1 sep s with h :: t => (c :: h) :: t | [] => [] end.
Proof. intros H. cbn [split1]. by rewrite H. Qed.

Lemma split1_boundary (sep a b : str) (c : char) :
  c ∉ sep → sep ≠ [] → contains sep a = false →
  split1 sep (a ++ c :: b)
  = match split1 sep b with h :: t => (a ++ c :: h) :: t | [] => [] end.
Proof.
  intros Hc Hne. induction a as [|x a IH]; intros Ha.
  - cbn [app]. apply split1_cons_other.
    destruct sep as [|p sep]; [done|]. apply not_elem_of_cons in Hc as [Hpc _].
    cbn. by destruct (N.eqb_spec p c); [congruence|].
  - rewrite contains_cons in Ha. apply orb_false_iff in Ha as [Hs Ha].
    cbn [app]. rewrite split1_cons_other.
    + rewrite (IH Ha). by destruct (split1 sep b).
    + change (x :: a ++ c :: b) with ((x :: a) ++ c :: b).
      by rewrite startswith_boundary.
Qed.

(** X24: an answer in the format the prompt asks for parses back to its two
    parts: when the compressed memory does not itself mention
    REMOVED_TOPICS, the parser returns the memory and the report, each
    stripped, whatever else they hold (colons and the COMPRESSED_MEMORY:
    marker included). *)
Theorem formatted_answer_parses_back (memory removed : str) :
  contains "REMOVED_TOPICS" memory = false →
  parse_compressed (formatted_answer memory removed)
  = Ok (strip memory, strip removed).
Proof.
  intros Hm. unfold parse_compressed, formatted_answer, cat.
  rewrite contains_prefix, split1_prefix. cbn [index lookup list_lookup mbind res_bind].
  set (rest := lit " (if any were removed):" ++ nl ++ removed).
  assert (split1 "REMOVED_TOPICS" (nl ++ memory ++ nl ++ nl ++ lit "REMOVED_TOPICS" ++ rest)
          = [nl ++ memory ++ nl ++ nl; rest]) as Hsplit.
  { change (nl ++ memory ++ nl ++ nl ++ lit "REMOVED_TOPICS" ++ rest)
      with ([] ++ 10%N :: (memory ++ 10%N :: ([] ++ 10%N :: (lit "REMOVED_TOPICS" ++ rest)))).
    assert (10%N ∉ lit "REMOVED_TOPICS") as Hnl
      by (apply (bool_decide_unpack _); reflexivity).
    rewrite (split1_boundary _ [] _ 10%N Hnl) by done.
    rewrite (split1_boundary _ memory _ 10%N Hnl) by done.
    rewrite (split1_boundary _ [] _ 10%N Hnl) by done.
    rewrite split1_prefix. reflexivity. }
  assert (contains "REMOVED_TOPICS"
            (nl ++ memory ++ nl ++ nl ++ lit "REMOVED_TOPICS" ++ rest) = true) as Hc.
  { rewrite !(app_assoc _ _ (lit "REMOVED_TOPICS" ++ rest)).
    apply contains_app_r, contains_prefix. }
  change (lit "REMOVED_TOPICS (if any were removed):" ++ nl ++ removed)
    with (lit "REMOVED_TOPICS" ++ rest).
  rewrite Hc, Hsplit. cbn [unpack2 mbind res_bind].
  replace (contains ":" rest) with true by reflexivity.
  replace (split1 ":" rest) with [lit " (if any were removed)"; nl ++ removed]
    by reflexivity.
  cbn [index lookup list_lookup fmap res_fmap mbind res_bind mret res_ret].
  f_equal. f_equal.
  rewrite !app_assoc. unfold strip.
  rewrite <- lstrip_rstrip, rstrip_app_blank, rstrip_app_blank by done.
  by rewrite lstrip_rstrip.
Qed.

Lemma formatted_answer_parses_back_witness :
  parse_compressed (formatted_answer (lit "Likes RL: policy gradients.") (lit "None"))
  = Ok (lit "Likes RL: policy gradients.", lit "None").
Proof.
  exact (formatted_answer_parses_back (lit "Likes RL: policy gradients.") (lit "None")
           eq_refl).
Defined.
